(** * ECS agent connection monitoring: the Lambda handler and its library

    A shallow embedding of [code/commonlib/commonlib.py] (classes [ECSNode]
    and [SNSTopic]) and of [code/lambda_event_bridge_monitor.py] (function
    [handler]), and the properties of the specification proved about them.

    Conventions of the embedding.
    - A Python [str] is a [string]: the sequence of its code points, for code
      points below 256 (on that range [\d] is [0-9]).
    - A decoded JSON document is a [pyval].
    - The AWS services answer through the oracles of a [World]; an oracle sees
      the events of the invocation so far, so two identical requests may get
      different answers.  Responses are typed after the documented response
      syntax of each operation; the lists inside them may be empty.
    - Effects (service requests and logger calls) are collected in a trace of
      [event]s; exceptions are the [Err] results of the monad [M]. *)

From Stdlib Require Import String Ascii List ZArith Bool Arith Lia.
Import ListNotations.
Open Scope string_scope.
Open Scope list_scope.

(** ** Python values *)

#[local] Set Warnings "-register-all".

Inductive pyval : Type :=
| PNone
| PBool (b : bool)
| PInt (z : Z)
| PFloat (lexeme : string)
| PStr (s : string)
| PList (items : list pyval)
| PDict (entries : list (string * pyval)).

(** One pair per key, as [json.loads] builds a dict. *)
Fixpoint dict_lookup (k : string) (entries : list (string * pyval)) : option pyval :=
  match entries with
  | [] => None
  | (k', v) :: rest => if String.eqb k' k then Some v else dict_lookup k rest
  end.

Definition type_name (v : pyval) : string :=
  match v with
  | PNone => "NoneType"
  | PBool _ => "bool"
  | PInt _ => "int"
  | PFloat _ => "float"
  | PStr _ => "str"
  | PList _ => "list"
  | PDict _ => "dict"
  end.

(** [v != "lit"] for a string literal. *)
Definition py_ne_str (v : pyval) (lit : string) : bool :=
  match v with
  | PStr s => negb (String.eqb s lit)
  | _ => true
  end.

(** [v is not False]. *)
Definition is_not_False (v : pyval) : bool :=
  match v with
  | PBool false => false
  | _ => true
  end.

(** [{x}] inside an f-string, for a value that is a [str] or [None]. *)
Definition fmt_opt (x : option string) : string :=
  match x with
  | Some s => s
  | None => "None"
  end.

(** ** Exceptions *)

Inductive exc_class : Type :=
| Exception_
| ValueError
| KeyError
| TypeError
| IndexError
| AttributeError
| JSONDecodeError
| UpstreamError.

(** An exception as the handler can catch it: its class and [str(error)].
    [UpstreamError] stands for whatever a boto3 client raises that is not a
    [ClientError]. *)
Record exc : Type := mkExc { exc_cls : exc_class; exc_text : string }.

(** What can be raised inside the [try] blocks around the boto3 calls. *)
Inductive api_failure : Type :=
| ClientError (code message : option string)
| Other (e : exc).

(** ** Responses of the services *)

Record container_instance : Type :=
  { ci_ec2InstanceId : string; ci_agentConnected : bool }.
Record instance : Type := { State_Name : string }.
Record reservation : Type := { Instances : list instance }.
Record instance_information : Type := { PingStatus : string }.
Record tag : Type := { key : string; value : string }.
Record cluster : Type := { tags : list tag }.

Inductive api_result (A : Type) : Type :=
| ApiOk (a : A)
| ApiClientError (code message : option string)
| ApiException (text : string).
Arguments ApiOk {A} a.
Arguments ApiClientError {A} code message.
Arguments ApiException {A} text.

(** ** Events and the effect monad *)

Inductive log_level : Type := INFO | WARNING.

Inductive log_arg : Type :=
| AStr (s : string)
| AVal (v : pyval)
| ATags (ts : list tag).

Inductive event : Type :=
| Log (level : log_level) (fmt : string) (args : list log_arg)
| DescribeContainerInstances (cluster_ref node_ecs_arn : pyval)
| DescribeInstances (node_id : string)
| DescribeInstanceInformation (node_id : string)
| DescribeClusters (cluster_ref : pyval)
| Publish (topic_arn : option string) (subject message : string).

Definition trace := list event.

Inductive result (E A : Type) : Type :=
| Ok (a : A)
| Err (e : E).
Arguments Ok {E A} a.
Arguments Err {E A} e.

(** A computation reads the events so far and yields its result with the
    events it adds. *)
Definition M (E A : Type) : Type := trace -> result E A * trace.

Definition run {E A} (m : M E A) (h : trace) : result E A * trace := m h.

Definition ret {E A} (a : A) : M E A := fun _ => (Ok a, []).

Definition raise {E A} (e : E) : M E A := fun _ => (Err e, []).

Definition bind {E A B} (m : M E A) (k : A -> M E B) : M E B :=
  fun h =>
    match m h with
    | (Ok a, t1) => let (r, t2) := k a (h ++ t1) in (r, t1 ++ t2)
    | (Err e, t1) => (Err e, t1)
    end.

(** [try: m except e: handler e]. *)
Definition catch {E E' A} (m : M E A) (handler : E -> M E' A) : M E' A :=
  fun h =>
    match m h with
    | (Ok a, t1) => (Ok a, t1)
    | (Err e, t1) => let (r, t2) := handler e (h ++ t1) in (r, t1 ++ t2)
    end.

Definition emit {E} (ev : event) : M E unit := fun _ => (Ok tt, [ev]).

(** A request to a service: the request is recorded, the oracle answers. *)
Definition call {A} (ev : event) (oracle : trace -> api_result A) : M api_failure A :=
  fun h =>
    (match oracle h with
     | ApiOk a => Ok a
     | ApiClientError code message => Err (ClientError code message)
     | ApiException text => Err (Other (mkExc UpstreamError text))
     end, [ev]).

Declare Scope monad_scope.
Delimit Scope monad_scope with monad.
Notation "x <- m ;; k" := (bind m (fun x => k))
  (at level 61, m at next level, right associativity) : monad_scope.
Notation "m ;; k" := (bind m (fun _ => k))
  (at level 61, right associativity) : monad_scope.
Open Scope monad_scope.

Definition logger_info {E} (fmt : string) (args : list log_arg) : M E unit :=
  emit (Log INFO fmt args).

Definition logger_warning {E} (fmt : string) (args : list log_arg) : M E unit :=
  emit (Log WARNING fmt args).

(** [xs[0]]. *)
Definition index0 {A} (xs : list A) : M api_failure A :=
  match xs with
  | x :: _ => ret x
  | [] => raise (Other (mkExc IndexError "list index out of range"))
  end.

(** ** The world outside the program *)

Record World : Type :=
  { (** [repr(v)] of a value that is not a [str]. *)
    py_repr : pyval -> string;
    describe_container_instances :
      trace -> pyval -> pyval -> api_result (list container_instance);
    describe_instances : trace -> string -> api_result (list reservation);
    describe_instance_information :
      trace -> string -> api_result (list instance_information);
    describe_clusters : trace -> pyval -> api_result (list cluster);
    publish : trace -> option string -> string -> string -> api_result unit }.

(** [str(v)]. *)
Definition py_str (w : World) (v : pyval) : string :=
  match v with
  | PStr s => s
  | _ => py_repr w v
  end.

(** ** [commonlib.py]: class [ECSNode] *)

Module Re.
(** The pattern of [fetch_ec2_details], [^i-(?:[a-f\d]{8}|[a-f\d]{17})$],
    used through [re.compile(...).match(node_id)], without flags. *)

(** The class [[a-f\d]], on the code points below 256 that the strings of
    this file hold: there [\d] is [0-9].  (On a Python [str] [\d] accepts
    the other Unicode decimal digits as well; they are all above 255.) *)
Definition hex_class (c : ascii) : bool :=
  let n := nat_of_ascii c in
  (((97 <=? n) && (n <=? 102)) || ((48 <=? n) && (n <=? 57)))%nat.

(** [[a-f\d]{n}]: consume exactly [n] characters of the class. *)
Fixpoint repeat_class (n : nat) (s : string) : option string :=
  match n with
  | O => Some s
  | S n' =>
      match s with
      | String c rest => if hex_class c then repeat_class n' rest else None
      | EmptyString => None
      end
  end.

Definition newline : ascii := ascii_of_nat 10.

(** [$] without [re.MULTILINE]: at the end of the string, or just before
    a newline that ends the string. *)
Definition dollar (rest : string) : bool :=
  match rest with
  | EmptyString => true
  | String c EmptyString => Ascii.eqb c newline
  | _ => false
  end.

(** One alternative of the group followed by [$]. *)
Definition alternative (n : nat) (s : string) : bool :=
  match repeat_class n s with
  | Some rest => dollar rest
  | None => false
  end.

Definition match_ec2_id (node_id : string) : bool :=
  match node_id with
  | String "i" (String "-" rest) => alternative 8 rest || alternative 17 rest
  | _ => false
  end.
End Re.

Record ECSNode : Type :=
  { ec2_id : string;
    instance_status : string;
    agent_connected : bool;
    cluster_arn : pyval }.

Definition fetch_ec2_details (w : World) (node_ecs_arn ecs_cluster : pyval)
  : M exc (string * string * bool) :=
  catch
    (cis <- call (DescribeContainerInstances ecs_cluster node_ecs_arn)
                 (fun h => describe_container_instances w h ecs_cluster node_ecs_arn) ;;
     container_instance <- index0 cis ;;
     let node_id := ci_ec2InstanceId container_instance in
     let agent_connected := ci_agentConnected container_instance in
     logger_info "Checking node [%s]." [AStr node_id] ;;
     instance_status <-
       (if Re.match_ec2_id node_id then
          (* This is an EC2 Instance, retrieve the state *)
          rs <- call (DescribeInstances node_id)
                     (fun h => describe_instances w h node_id) ;;
          r <- index0 rs ;;
          i <- index0 (Instances r) ;;
          ret (State_Name i)
        else
          (* This is an ECS Anywhere node, retrieve the state *)
          infos <- call (DescribeInstanceInformation node_id)
                        (fun h => describe_instance_information w h node_id) ;;
          info <- index0 infos ;;
          let ping_status := PingStatus info in
          if String.eqb ping_status "Online" then ret "running" else ret "not-running") ;;
     ret (node_id, instance_status, agent_connected))
    (fun error =>
       match error with
       | ClientError code message =>
           raise (mkExc Exception_
                    ("Error: An error occurred when fetching instance details - "
                       ++ fmt_opt code ++ " : " ++ fmt_opt message))
       | Other e =>
           raise (mkExc Exception_
                    ("Error: An error occurred when fetching instance details - "
                       ++ exc_text e))
       end).

(** [ECSNode.__init__]. *)
Definition ECSNode_init (w : World) (node_ecs_arn ecs_cluster : pyval) : M exc ECSNode :=
  details <- fetch_ec2_details w node_ecs_arn ecs_cluster ;;
  let '(node_id, status, connected) := details in
  ret {| ec2_id := node_id;
         instance_status := status;
         agent_connected := connected;
         cluster_arn := ecs_cluster |}.

Record ec2_item : Type :=
  { ec2InstanceId : string; clusterArn : pyval; agentConnected : bool }.

Definition get_ec2_item (self : ECSNode) : ec2_item :=
  {| ec2InstanceId := ec2_id self;
     clusterArn := cluster_arn self;
     agentConnected := agent_connected self |}.

Definition is_ec2_running (self : ECSNode) : M exc bool :=
  if String.eqb (instance_status self) "running" then ret true
  else
    logger_info "ECS Container Instance [%s] is not running anymore." [AStr (ec2_id self)] ;;
    ret false.

(** The test of the list comprehension of [does_cluster_have_tags]. *)
Definition tag_matches (tag_key tag_value : string) (element : tag) : bool :=
  String.eqb (key element) tag_key && String.eqb (value element) tag_value.

Definition does_cluster_have_tags (w : World) (self : ECSNode)
    (tag_key tag_value : option string) : M exc bool :=
  match tag_key, tag_value with
  | Some tag_key, Some tag_value =>
      catch
        (cs <- call (DescribeClusters (cluster_arn self))
                    (fun h => describe_clusters w h (cluster_arn self)) ;;
         c <- index0 cs ;;
         let cluster_tags := tags c in
         logger_info "Checking ECS cluster: [%s]" [AVal (cluster_arn self)] ;;
         logger_info "Looking for -> Tag key: [%s] - Tag value: [%s]"
                     [AStr tag_key; AStr tag_value] ;;
         logger_info "Cluster Tags: %s" [ATags cluster_tags] ;;
         let tag_result := filter (tag_matches tag_key tag_value) cluster_tags in
         match tag_result with
         | _ :: _ =>
             logger_info "Found tags: %s" [ATags tag_result] ;;
             ret true
         | [] =>
             logger_info "ECS Cluster tags do not match. 'MonitorByTag' was enabled but this Cluster is not enabled for monitoring." [] ;;
             ret false
         end)
        (fun error =>
           match error with
           | ClientError code message =>
               raise (mkExc Exception_
                        ("Error: An error occurred when checking Cluster tags - "
                           ++ fmt_opt code ++ " : " ++ fmt_opt message))
           | Other _ =>
               raise (mkExc Exception_
                        "Error: An error occurred when checking Cluster tags.")
           end)
  | _, _ => ret false
  end.

Definition is_agent_connected (self : ECSNode) : M exc bool :=
  if agent_connected self then
    logger_info "ECS Agent for Container Instance [%s] is connected." [AStr (ec2_id self)] ;;
    ret true
  else
    logger_info "ECS Agent for Container Instance [%s] remains with agentConnected status as false."
                [AStr (ec2_id self)] ;;
    ret false.

(** ** [commonlib.py]: class [SNSTopic] *)

Definition send_email (w : World) (topic_arn : option string)
    (email_subject email_body : string) : M exc unit :=
  catch
    (call (Publish topic_arn email_subject email_body)
          (fun h => publish w h topic_arn email_subject email_body))
    (fun error =>
       match error with
       | ClientError code message =>
           raise (mkExc Exception_
                    ("Error: An error occurred when sending the e-mail - "
                       ++ fmt_opt code ++ " : " ++ fmt_opt message))
       | Other e =>
           raise (mkExc Exception_
                    ("Error: An error occurred when sending the e-mail - " ++ exc_text e))
       end).

(** ** [lambda_event_bridge_monitor.py] *)

(** The process environment, as [os.environ.get] reads it: [None] for a
    variable that is not set (for [sendEmailNotification] the handler then
    passes its default, [False], as the topic). *)
Record Environ : Type :=
  { monitoringTagKeyName : option string;
    monitoringTagKeyValue : option string;
    checkAllClusters : option string;
    sendEmailNotification : option string }.

(** A record of [event["Records"]], by what [json.loads(record.get("body", None))]
    does with it: there is no body, the body is not a JSON text (the decoder's
    message is kept), or the body decodes to a value. *)
Inductive sqs_record : Type :=
| BodyMissing
| BodyInvalid (text : string)
| BodyJson (v : pyval).

Inductive completion : Type :=
| Returned
| Raised (error : exc).

(** [c.lower()] on the code points below 256. *)
Definition lower_char (c : ascii) : ascii :=
  let n := nat_of_ascii c in
  if (((65 <=? n) && (n <=? 90))
      || ((192 <=? n) && (n <=? 222) && negb (n =? 215)))%nat
  then ascii_of_nat (n + 32) else c.

Fixpoint lower (s : string) : string :=
  match s with
  | EmptyString => EmptyString
  | String c rest => String (lower_char c) (lower rest)
  end.

(** [check_all_clusters.lower() in ['true', 'yes']], with the default
    ['false'] of [os.environ.get]. *)
Definition monitor_all (env : Environ) : bool :=
  let check_all_clusters :=
    match checkAllClusters env with Some s => s | None => "false" end in
  existsb (String.eqb (lower check_all_clusters)) ["true"; "yes"].

(** [json.loads(record.get("body", None))]. *)
Definition json_loads (record : sqs_record) : M exc pyval :=
  match record with
  | BodyMissing =>
      raise (mkExc TypeError
               "the JSON object must be str, bytes or bytearray, not NoneType")
  | BodyInvalid text => raise (mkExc JSONDecodeError text)
  | BodyJson v => ret v
  end.

(** [v[k]] for a string [k]; the texts of [TypeError] are those of
    CPython 3.11 and later. *)
Definition getitem (v : pyval) (k : string) : M exc pyval :=
  match v with
  | PDict entries =>
      match dict_lookup k entries with
      | Some x => ret x
      | None => raise (mkExc KeyError ("'" ++ k ++ "'"))
      end
  | PStr _ => raise (mkExc TypeError "string indices must be integers, not 'str'")
  | PList _ => raise (mkExc TypeError "list indices must be integers or slices, not str")
  | _ => raise (mkExc TypeError ("'" ++ type_name v ++ "' object is not subscriptable"))
  end.

(** [v.get(k, None)]. *)
Definition py_get (v : pyval) (k : string) : M exc pyval :=
  match v with
  | PDict entries =>
      match dict_lookup k entries with
      | Some x => ret x
      | None => ret PNone
      end
  | _ => raise (mkExc AttributeError
                  ("'" ++ type_name v ++ "' object has no attribute 'get'"))
  end.

(** [s.rsplit(sep, 1)] for a one-character separator: the split at the last
    occurrence of [sep], when there is one. *)
Fixpoint rsplit_last (sep : ascii) (s : string) : option (string * string) :=
  match s with
  | EmptyString => None
  | String c rest =>
      match rsplit_last sep rest with
      | Some (before, after) => Some (String c before, after)
      | None => if Ascii.eqb c sep then Some (EmptyString, rest) else None
      end
  end.

Definition rsplit1 (sep : ascii) (s : string) : list string :=
  match rsplit_last sep s with
  | Some (before, after) => [before; after]
  | None => [s]
  end.

(** [xs[1]]. *)
Definition index1 {A} (xs : list A) : M exc A :=
  match xs with
  | _ :: x :: _ => ret x
  | _ => raise (mkExc IndexError "list index out of range")
  end.

Definition custom_actions (expired_instance : ec2_item) : M exc unit := ret tt.

(** Lines 74-98 of [handler]: decode the record, the sanity checks and the
    early [return].  [None] is the early [return]; [Some payload] goes on. *)
Definition screen (record : sqs_record) : M exc (option pyval) :=
  logger_info "Processing new record." [] ;;
  payload <- json_loads record ;;
  match payload with
  | PNone => raise (mkExc ValueError "Message empty! No details to process.")
  | _ =>
      source <- getitem payload "source" ;;
      unsupported <-
        (if py_ne_str source "aws.ecs" then ret true
         else
           detail_type <- getitem payload "detail-type" ;;
           ret (py_ne_str detail_type "ECS Container Instance State Change")) ;;
      if (unsupported : bool) then
        raise (mkExc ValueError
                 "Only 'aws.ecs' events and Instance state changes are supported.")
      else
        detail <- getitem payload "detail" ;;
        connected <- getitem detail "agentConnected" ;;
        skip <-
          (if is_not_False connected then ret true
           else
             detail <- getitem payload "detail" ;;
             status <- getitem detail "status" ;;
             ret (py_ne_str status "ACTIVE")) ;;
        if (skip : bool) then
          logger_info "Instance does not need to be processed (reconnected or not ACTIVE)." [] ;;
          ret None
        else ret (Some payload)
  end.

(** Lines 101-104: the [ECSNode] of the event. *)
Definition resolve (w : World) (payload : pyval) : M exc ECSNode :=
  detail <- py_get payload "detail" ;;
  node_ecs_arn <- py_get detail "containerInstanceArn" ;;
  detail <- py_get payload "detail" ;;
  ecs_cluster <- py_get detail "clusterArn" ;;
  ECSNode_init w node_ecs_arn ecs_cluster.

(** Lines 110-119: the condition of the [if], with the short-circuits of
    [or] and [and]. *)
Definition is_eligible (w : World) (env : Environ) (ecs_instance : ECSNode) : M exc bool :=
  monitored <-
    (if monitor_all env then ret true
     else does_cluster_have_tags w ecs_instance
            (monitoringTagKeyName env) (monitoringTagKeyValue env)) ;;
  if (monitored : bool) then
    running <- is_ec2_running ecs_instance ;;
    if (running : bool) then
      connected <- is_agent_connected ecs_instance ;;
      ret (negb connected)
    else ret false
  else ret false.

Definition email_subject_of (node_id : string) : string :=
  "[ISSUE] ECS Instance - " ++ node_id.

Definition notification_text_of (w : World) (ecs_instance : ECSNode) : string :=
  "[ISSUE] ECS Container Instance " ++ ec2InstanceId (get_ec2_item ecs_instance)
    ++ " from Cluster " ++ py_str w (clusterArn (get_ec2_item ecs_instance))
    ++ " has the ECS Agent disconnected.".

(** Lines 121-152: the body of the [if], from the list of the nodes already
    processed to that list afterwards. *)
Definition alert (w : World) (env : Environ) (already_processed_nodes : list string)
    (ecs_instance : ECSNode) : M exc (list string) :=
  let node_id := ec2InstanceId (get_ec2_item ecs_instance) in
  if existsb (String.eqb node_id) already_processed_nodes then
    logger_info "Avoiding duplicated alerts, [%s] has already been processed." [AStr node_id] ;;
    ret already_processed_nodes
  else
    let already_processed_nodes := already_processed_nodes ++ [node_id] in
    let notification_text := notification_text_of w ecs_instance in
    logger_info "Sending email notification: %s" [AStr notification_text] ;;
    send_email w (sendEmailNotification env) (email_subject_of node_id) notification_text ;;
    short_name <-
      index1 (rsplit1 "/" (py_str w (clusterArn (get_ec2_item ecs_instance)))) ;;
    logger_warning "%s %s"
      [AStr short_name; AStr (ec2InstanceId (get_ec2_item ecs_instance))] ;;
    custom_actions (get_ec2_item ecs_instance) ;;
    ret already_processed_nodes.

Inductive flow : Type := Continue | Return.

(** The body of the [for] loop. *)
Definition process_record (w : World) (env : Environ)
    (already_processed_nodes : list string) (record : sqs_record)
  : M exc (flow * list string) :=
  screened <- screen record ;;
  match screened with
  | None => ret (Return, already_processed_nodes)
  | Some payload =>
      ecs_instance <- resolve w payload ;;
      eligible <- is_eligible w env ecs_instance ;;
      if (eligible : bool) then
        already_processed_nodes <- alert w env already_processed_nodes ecs_instance ;;
        ret (Continue, already_processed_nodes)
      else
        logger_info "Container Instance %s does not need to be checked. Execution successful!"
          [AStr (ec2InstanceId (get_ec2_item ecs_instance))] ;;
        ret (Continue, already_processed_nodes)
  end.

(** [for record in event["Records"]]. *)
Fixpoint loop (w : World) (env : Environ) (already_processed_nodes : list string)
    (records : list sqs_record) : M exc (flow * list string) :=
  match records with
  | [] => ret (Continue, already_processed_nodes)
  | record :: rest =>
      step <- process_record w env already_processed_nodes record ;;
      match step with
      | (Continue, already_processed_nodes) => loop w env already_processed_nodes rest
      | (Return, already_processed_nodes) => ret (Return, already_processed_nodes)
      end
  end.

(** The [try] block of [handler]. *)
Definition handler_try (w : World) (env : Environ) (records : list sqs_record)
  : M exc (flow * list string) :=
  logger_info "Start processing the event." [] ;;
  loop w env [] records.

(** The [except Exception as error] clause of [handler]: whatever was raised
    in the [try] block is raised again as one [Exception]. *)
Definition reraise {A} (outcome : result exc A) : completion :=
  match outcome with
  | Ok _ => Returned
  | Err error =>
      Raised (mkExc Exception_ ("Error: execution error - " ++ exc_text error))
  end.

(** [handler(event, context)], on the records of the event, from the start
    of the invocation: how it ends and the events it caused. *)
Definition handler (w : World) (env : Environ) (records : list sqs_record)
  : completion * trace :=
  let (outcome, t) := run (handler_try w env records) [] in
  (reraise outcome, t).

(** ** Reading traces and payloads *)

Definition is_request (e : event) : bool :=
  match e with
  | Log _ _ _ => false
  | _ => true
  end.

(** The requests sent to the services, in order. *)
Definition requests (t : trace) : trace := filter is_request t.

Definition is_tag_query (e : event) : bool :=
  match e with
  | DescribeClusters _ => true
  | _ => false
  end.

(** [payload.k], when the payload is an object that has the key. *)
Definition field (v : pyval) (k : string) : option pyval :=
  match v with
  | PDict entries => dict_lookup k entries
  | _ => None
  end.

(** [payload.detail.k]. *)
Definition detail_field (payload : pyval) (k : string) : option pyval :=
  match field payload "detail" with
  | Some detail => field detail k
  | None => None
  end.

(** The payloads and records the handler tells apart before it resolves
    anything. *)
Inductive malformed_payload : sqs_record -> Prop :=
| no_body : malformed_payload BodyMissing
| not_json text : malformed_payload (BodyInvalid text)
| null_json : malformed_payload (BodyJson PNone).

Definition supported_event (p : pyval) : Prop :=
  field p "source" = Some (PStr "aws.ecs")
  /\ field p "detail-type" = Some (PStr "ECS Container Instance State Change").

Definition unsupported_event (p : pyval) : Prop :=
  (exists s, field p "source" = Some s /\ s <> PStr "aws.ecs")
  \/ (field p "source" = Some (PStr "aws.ecs")
      /\ exists d, field p "detail-type" = Some d
                   /\ d <> PStr "ECS Container Instance State Change").

(** The event declares an agent that is not explicitly disconnected, or an
    instance that is not ACTIVE. *)
Definition declares_no_alarm (p : pyval) : Prop :=
  (exists c, detail_field p "agentConnected" = Some c /\ c <> PBool false)
  \/ (detail_field p "agentConnected" = Some (PBool false)
      /\ exists s, detail_field p "status" = Some s /\ s <> PStr "ACTIVE").

(** The running state of a resolved node, as [is_ec2_running] decides it. *)
Definition isRunning (self : ECSNode) : bool :=
  String.eqb (instance_status self) "running".

Definition is_publish (e : event) : bool :=
  match e with
  | Publish _ _ _ => true
  | _ => false
  end.

(** [s] without its prefix [p], when it starts with [p]. *)
Fixpoint strip_prefix (p s : string) : option string :=
  match p, s with
  | EmptyString, _ => Some s
  | String a p', String b s' => if Ascii.eqb a b then strip_prefix p' s' else None
  | String _ _, EmptyString => None
  end.

(** The node a notification is about, read off its subject. *)
Definition alerted_node (e : event) : option string :=
  match e with
  | Publish _ subject _ => strip_prefix "[ISSUE] ECS Instance - " subject
  | _ => None
  end.

(** The nodes of the notifications dispatched, in order. *)
Fixpoint dispatched (t : trace) : list string :=
  match t with
  | [] => []
  | e :: rest =>
      match alerted_node e with
      | Some node_id => node_id :: dispatched rest
      | None => dispatched rest
      end
  end.

Definition start_line : event := Log INFO "Start processing the event." [].

Definition processing_line : event := Log INFO "Processing new record." [].

Definition skip_line : event :=
  Log INFO "Instance does not need to be processed (reconnected or not ACTIVE)." [].

Definition avoiding_line (node_id : string) : event :=
  Log INFO "Avoiding duplicated alerts, [%s] has already been processed." [AStr node_id].

Definition sending_line (notification_text : string) : event :=
  Log INFO "Sending email notification: %s" [AStr notification_text].

(** The record [r], processed after the events [h], passes all the checks,
    resolves to the node [self] and is found eligible; [t] are the events up
    to that decision. *)
Definition eligible_for (w : World) (env : Environ) (r : sqs_record) (h : trace)
    (self : ECSNode) (t : trace) : Prop :=
  exists p t1 t2 t3,
    run (screen r) h = (Ok (Some p), t1)
    /\ run (resolve w p) (h ++ t1) = (Ok self, t2)
    /\ run (is_eligible w env self) (h ++ t1 ++ t2) = (Ok true, t3)
    /\ t = t1 ++ t2 ++ t3.

(** An outcome of a loop body after which the loop does not go on. *)
Definition stops {A} (res : result exc (flow * A)) : Prop :=
  match res with
  | Ok (Continue, _) => False
  | _ => True
  end.

(** A computation none of whose events is of the kind [P], whatever
    happened before. *)
Definition avoids {E A} (P : event -> bool) (m : M E A) : Prop :=
  forall h, filter P (snd (run m h)) = [].

(** [c in s]. *)
Fixpoint occurs (c : ascii) (s : string) : bool :=
  match s with
  | EmptyString => false
  | String c' rest => Ascii.eqb c' c || occurs c rest
  end.

(** A string of lowercase hexadecimal characters. *)
Fixpoint lower_hex (s : string) : bool :=
  match s with
  | EmptyString => true
  | String c rest => occurs c "0123456789abcdef" && lower_hex rest
  end.

(** ** A sample deployment

    One cluster, tagged [monitor = yes], with one container instance that is
    running with its agent disconnected; every request succeeds. *)

Module Sample.

Definition world (node_id : string) : World :=
  {| py_repr := fun v =>
       match v with
       | PNone => "None"
       | PBool true => "True"
       | PBool false => "False"
       | _ => "..."
       end;
     describe_container_instances := fun _ _ _ =>
       ApiOk [ {| ci_ec2InstanceId := node_id; ci_agentConnected := false |} ];
     describe_instances := fun _ _ =>
       ApiOk [ {| Instances := [ {| State_Name := "running" |} ] |} ];
     describe_instance_information := fun _ _ =>
       ApiOk [ {| PingStatus := "Online" |} ];
     describe_clusters := fun _ _ =>
       ApiOk [ {| tags := [ {| key := "monitor"; value := "yes" |} ] |} ];
     publish := fun _ _ _ _ => ApiOk tt |}.


Definition topic : string := "arn:aws:sns:eu-west-1:111122223333:alerts".

(** Monitoring by tag. *)
Definition by_tag : Environ :=
  {| monitoringTagKeyName := Some "monitor";
     monitoringTagKeyValue := Some "yes";
     checkAllClusters := None;
     sendEmailNotification := Some topic |}.

(** Monitoring of all clusters, no tag configured. *)
Definition all_clusters : Environ :=
  {| monitoringTagKeyName := None;
     monitoringTagKeyValue := None;
     checkAllClusters := Some "True";
     sendEmailNotification := Some topic |}.

Definition instance_arn : string :=
  "arn:aws:ecs:eu-west-1:111122223333:container-instance/prod/0a1b2c".

Definition prod : string := "arn:aws:ecs:eu-west-1:111122223333:cluster/prod".

(** The body of a state-change event of the container service. *)
Definition payload (cluster_ref : string) (connected : bool) (status : string) : pyval :=
  PDict [("source", PStr "aws.ecs");
         ("detail-type", PStr "ECS Container Instance State Change");
         ("detail",
          PDict [("containerInstanceArn", PStr instance_arn);
                 ("clusterArn", PStr cluster_ref);
                 ("agentConnected", PBool connected);
                 ("status", PStr status)])].

(** The agent of an ACTIVE instance of the cluster has disconnected. *)
Definition alarm : sqs_record := BodyJson (payload prod false "ACTIVE").

(** The agent has reconnected. *)
Definition reconnected : sqs_record := BodyJson (payload prod true "ACTIVE").

(** An event of another service. *)
Definition foreign : pyval :=
  PDict [("source", PStr "aws.ec2");
         ("detail-type", PStr "EC2 Instance State-change Notification")].

Definition node (node_id : string) : ECSNode :=
  {| ec2_id := node_id;
     instance_status := "running";
     agent_connected := false;
     cluster_arn := PStr prod |}.

(** A node identifier with a newline after its eight hexadecimal digits. *)
Definition newline_id : string := "i-0123abcd" ++ String Re.newline "".

End Sample.

(** ** Further readings of a trace *)

Definition is_state_query (e : event) : bool :=
  match e with
  | DescribeInstances _ => true
  | DescribeInstanceInformation _ => true
  | _ => false
  end.

(** The requests one record may cause, in their order: the container
    instance, then the state of the node, then the tags of the cluster, then
    the notification; each at most once, the tags and the notification only
    after the two before them. *)
Definition record_requests (l : trace) : bool :=
  match l with
  | [] => true
  | [DescribeContainerInstances _ _] => true
  | DescribeContainerInstances _ _ :: state :: rest =>
      is_state_query state
      && match rest with
         | [] => true
         | [DescribeClusters _] => true
         | [Publish _ _ _] => true
         | [DescribeClusters _; Publish _ _ _] => true
         | _ => false
         end
  | _ => false
  end.

(** [d.get(k, None)] on the value of an optional key. *)
Definition or_None (x : option pyval) : pyval :=
  match x with
  | Some v => v
  | None => PNone
  end.

(** [c] is the letter [l], in lower or in upper case. *)
Definition letter (l : ascii) (c : ascii) : Prop :=
  c = l \/ c = ascii_of_nat (nat_of_ascii l - 32).

(** ** Other deployments

    The sample deployment with other answers of the compute service, of the
    tags of the cluster and of the notification service. *)

Module Scenario.

Definition world (state : api_result (list reservation))
    (clusters : api_result (list cluster)) (sent : api_result unit) : World :=
  {| py_repr := py_repr (Sample.world "i-0123abcd");
     describe_container_instances :=
       describe_container_instances (Sample.world "i-0123abcd");
     describe_instances := fun _ _ => state;
     describe_instance_information :=
       describe_instance_information (Sample.world "i-0123abcd");
     describe_clusters := fun _ _ => clusters;
     publish := fun _ _ _ _ => sent |}.

Definition running : api_result (list reservation) :=
  ApiOk [ {| Instances := [ {| State_Name := "running" |} ] |} ].

Definition stopped : api_result (list reservation) :=
  ApiOk [ {| Instances := [ {| State_Name := "stopped" |} ] |} ].

Definition tagged : api_result (list cluster) :=
  ApiOk [ {| tags := [ {| key := "monitor"; value := "yes" |} ] |} ].

(** The instance is stopped. *)
Definition with_stopped_instance : World := world stopped tagged (ApiOk tt).

(** The compute service knows no such instance. *)
Definition without_instance : World := world (ApiOk []) tagged (ApiOk tt).

(** The container service describes no cluster when asked for the tags. *)
Definition without_tags_answer : World := world running (ApiOk []) (ApiOk tt).



(** The notification service refuses the publication. *)
Definition with_publish_denied : World :=
  world running tagged
    (ApiClientError (Some "AuthorizationError") (Some "Not authorized to publish.")).

(** Neither tag nor monitoring of all clusters is configured. *)
Definition unconfigured : Environ :=
  {| monitoringTagKeyName := None;
     monitoringTagKeyValue := None;
     checkAllClusters := None;
     sendEmailNotification := Some Sample.topic |}.

(** A state change that names no cluster. *)
Definition without_cluster_ref : pyval :=
  PDict [("source", PStr "aws.ecs");
         ("detail-type", PStr "ECS Container Instance State Change");
         ("detail",
          PDict [("containerInstanceArn", PStr Sample.instance_arn);
                 ("agentConnected", PBool false);
                 ("status", PStr "ACTIVE")])].

(** A state change of a disconnected agent that declares no status. *)
Definition without_status : pyval :=
  PDict [("source", PStr "aws.ecs");
         ("detail-type", PStr "ECS Container Instance State Change");
         ("detail",
          PDict [("containerInstanceArn", PStr Sample.instance_arn);
                 ("clusterArn", PStr Sample.prod);
                 ("agentConnected", PBool false)])].

End Scenario.

(** ** The monad *)

Lemma run_bind {E A B} (m : M E A) (k : A -> M E B) h :
  run (bind m k) h =
  match run m h with
  | (Ok a, t1) => let (r, t2) := run (k a) (h ++ t1) in (r, t1 ++ t2)
  | (Err e, t1) => (Err e, t1)
  end.
Proof. reflexivity. Qed.

Lemma bind_ok_inv {E A B} (m : M E A) (k : A -> M E B) h b t :
  run (bind m k) h = (Ok b, t) ->
  exists a t1 t2,
    run m h = (Ok a, t1) /\ run (k a) (h ++ t1) = (Ok b, t2) /\ t = t1 ++ t2.
Proof.
  rewrite run_bind. destruct (run m h) as [[a | e] t1]; [ | discriminate ].
  destruct (run (k a) (h ++ t1)) as [r t2] eqn:Hk. intros Heq.
  injection Heq as -> <-. exists a, t1, t2. auto.
Qed.

Lemma bind_emit {E B} (ev : event) (k : unit -> M E B) h :
  run (bind (emit ev) k) h =
  let (r, t) := run (k tt) (h ++ [ev]) in (r, ev :: t).
Proof. reflexivity. Qed.

Lemma ret_ok_inv {E A} (a b : A) h t :
  run (@ret E A a) h = (Ok b, t) -> a = b /\ t = [].
Proof. unfold run, ret. intros Heq. injection Heq as -> <-. auto. Qed.

Lemma avoids_ret {E A} P (a : A) : avoids P (@ret E A a).
Proof. intros h. reflexivity. Qed.

Lemma avoids_raise {E A} P (e : E) : avoids P (@raise E A e).
Proof. intros h. reflexivity. Qed.

Lemma avoids_emit {E} P ev : P ev = false -> avoids P (@emit E ev).
Proof. intros Hev h. simpl. now rewrite Hev. Qed.

Lemma avoids_call {A} P ev (oracle : trace -> api_result A) :
  P ev = false -> avoids P (call ev oracle).
Proof. intros Hev h. simpl. now rewrite Hev. Qed.

Lemma avoids_bind {E A B} P (m : M E A) (k : A -> M E B) :
  avoids P m -> (forall a, avoids P (k a)) -> avoids P (bind m k).
Proof.
  intros Hm Hk h. rewrite run_bind. specialize (Hm h).
  destruct (run m h) as [[a | e] t1]; simpl in *; [ | exact Hm ].
  specialize (Hk a (h ++ t1)). destruct (run (k a) (h ++ t1)) as [r t2].
  simpl in *. now rewrite filter_app, Hm, Hk.
Qed.

Lemma avoids_catch {E E' A} P (m : M E A) (handler : E -> M E' A) :
  avoids P m -> (forall e, avoids P (handler e)) -> avoids P (catch m handler).
Proof.
  intros Hm Hk h. unfold run, catch. specialize (Hm h). unfold run in Hm.
  destruct (m h) as [[a | e] t1]; simpl in *; [ exact Hm | ].
  specialize (Hk e (h ++ t1)). unfold run in Hk.
  destruct (handler e (h ++ t1)) as [r t2].
  simpl in *. now rewrite filter_app, Hm, Hk.
Qed.

Create HintDb avoids_db.
#[local] Hint Resolve avoids_ret avoids_raise : avoids_db.

(** Goes through a computation, statement by statement. *)
Ltac avoids_tac :=
  repeat first
    [ solve [ auto with avoids_db ]
    | apply avoids_emit; reflexivity
    | apply avoids_call; reflexivity
    | apply avoids_bind; [ | intros ? ]
    | apply avoids_catch; [ | intros ? ]
    | match goal with
      | |- avoids _ (match ?x with _ => _ end) => destruct x
      | |- avoids _ (if ?b then _ else _) => destruct b
      | |- avoids _ (let '(_, _) := ?x in _) => destruct x
      end ].

Lemma avoids_getitem P v k : avoids P (getitem v k).
Proof. unfold getitem. avoids_tac. Qed.

Lemma avoids_py_get P v k : avoids P (py_get v k).
Proof. unfold py_get. avoids_tac. Qed.

Lemma avoids_json_loads P r : avoids P (json_loads r).
Proof. unfold json_loads. avoids_tac. Qed.

Lemma avoids_index0 {A} P (xs : list A) : avoids P (index0 xs).
Proof. unfold index0. avoids_tac. Qed.

Lemma avoids_index1 {A} P (xs : list A) : avoids P (index1 xs).
Proof. unfold index1. avoids_tac. Qed.

#[local] Hint Resolve avoids_getitem avoids_py_get avoids_json_loads
  avoids_index0 avoids_index1 : avoids_db.

(** ** The screening of a record *)

(** The screening only logs. *)
Lemma screen_only_logs P r :
  (forall level fmt args, P (Log level fmt args) = false) -> avoids P (screen r).
Proof.
  intros Hlog. unfold screen, logger_info.
  repeat first
    [ solve [ auto with avoids_db ]
    | apply avoids_emit; apply Hlog
    | apply avoids_bind; [ | intros ? ]
    | match goal with
      | |- avoids _ (match ?x with _ => _ end) => destruct x
      | |- avoids _ (if ?b then _ else _) => destruct b
      end ].
Qed.

Lemma getitem_ok_inv v k h x t :
  run (getitem v k) h = (Ok x, t) -> field v k = Some x /\ t = [].
Proof.
  unfold getitem, field. destruct v; try discriminate.
  destruct (dict_lookup k entries); [ | discriminate ].
  intros Heq. apply ret_ok_inv in Heq as [-> ->]. auto.
Qed.

Lemma py_ne_str_false v lit : py_ne_str v lit = false -> v = PStr lit.
Proof.
  destruct v; simpl; try discriminate. intros Heq.
  apply negb_false_iff, String.eqb_eq in Heq. now subst.
Qed.

Lemma is_not_False_false v : is_not_False v = false -> v = PBool false.
Proof. destruct v as [ | [ | ] | | | | | ]; simpl; congruence. Qed.

(** A record goes past the screening only as the decoded event of the one
    supported kind that declares the agent disconnected and the instance
    ACTIVE; nothing but the first log line has happened then. *)
Lemma screen_proceeds r h p t :
  run (screen r) h = (Ok (Some p), t) ->
  r = BodyJson p
  /\ field p "source" = Some (PStr "aws.ecs")
  /\ field p "detail-type" = Some (PStr "ECS Container Instance State Change")
  /\ detail_field p "agentConnected" = Some (PBool false)
  /\ detail_field p "status" = Some (PStr "ACTIVE")
  /\ t = [Log INFO "Processing new record." []].
Proof.
  unfold screen, logger_info. rewrite bind_emit.
  destruct (run _ (h ++ _)) as [res t'] eqn:Hrun. intros Heq.
  injection Heq as -> <-.
  apply bind_ok_inv in Hrun as (payload & t1 & t2 & Hload & Hrun & ->).
  destruct r; try discriminate. apply ret_ok_inv in Hload as [-> ->].
  destruct payload; try discriminate;
    apply bind_ok_inv in Hrun as (source & t3 & t4 & Hsrc & Hrest & ->);
    apply getitem_ok_inv in Hsrc as [Hsrc ->]; try discriminate.
  apply bind_ok_inv in Hrest as (unsupported & t5 & t6 & Huns & Hrest & ->).
  destruct unsupported; [ discriminate | ].
  destruct (py_ne_str source "aws.ecs") eqn:Hs; [ apply ret_ok_inv in Huns as [? _]; discriminate | ].
  apply py_ne_str_false in Hs. subst source.
  apply bind_ok_inv in Huns as (dt & t7 & t8 & Hdt & Huns & ->).
  apply getitem_ok_inv in Hdt as [Hdt ->].
  apply ret_ok_inv in Huns as [Hd ->]. apply py_ne_str_false in Hd. subst dt.
  apply bind_ok_inv in Hrest as (detail & t9 & t10 & Hdet & Hrest & ->).
  apply getitem_ok_inv in Hdet as [Hdet ->].
  apply bind_ok_inv in Hrest as (connected & t11 & t12 & Hcon & Hrest & ->).
  apply getitem_ok_inv in Hcon as [Hcon ->].
  apply bind_ok_inv in Hrest as (skip & t13 & t14 & Hskip & Hrest & ->).
  destruct skip.
  { apply bind_ok_inv in Hrest as (? & ? & ? & _ & Hrest & _).
    apply ret_ok_inv in Hrest as [? _]. discriminate. }
  apply ret_ok_inv in Hrest as [Hp ->]. injection Hp as <-.
  destruct (is_not_False connected) eqn:Hc; [ apply ret_ok_inv in Hskip as [? _]; discriminate | ].
  apply is_not_False_false in Hc. subst connected.
  apply bind_ok_inv in Hskip as (detail' & t15 & t16 & Hdet' & Hskip & ->).
  apply getitem_ok_inv in Hdet' as [Hdet' ->].
  apply bind_ok_inv in Hskip as (status & t17 & t18 & Hst & Hskip & ->).
  apply getitem_ok_inv in Hst as [Hst ->].
  apply ret_ok_inv in Hskip as [Hne ->]. apply py_ne_str_false in Hne. subst status.
  rewrite Hdet in Hdet'. injection Hdet' as <-.
  unfold detail_field. rewrite Hdet.
  repeat split; auto.
Qed.

(** ** The loop over the records *)

Lemma handler_loop w env records :
  handler w env records =
  let (outcome, t) := run (loop w env [] records) [start_line] in
  (reraise outcome, start_line :: t).
Proof.
  unfold handler, handler_try, logger_info, start_line. rewrite bind_emit.
  simpl app. now destruct (run (loop w env [] records) _) as [outcome t].
Qed.

Lemma loop_cons w env a r post h :
  run (loop w env a (r :: post)) h =
  match run (process_record w env a r) h with
  | (Ok (Continue, a'), t1) =>
      let (res, t2) := run (loop w env a' post) (h ++ t1) in (res, t1 ++ t2)
  | (Ok (Return, a'), t1) => (Ok (Return, a'), t1)
  | (Err e, t1) => (Err e, t1)
  end.
Proof.
  simpl loop. rewrite run_bind.
  destruct (run (process_record w env a r) h) as [[[[ | ] a'] | e] t1]; try reflexivity.
  unfold run, ret. simpl. now rewrite app_nil_r.
Qed.

(** After an outcome that stops the loop the rest of the batch is not looked at. *)
Lemma loop_cons_stop w env a r post h res t :
  run (process_record w env a r) h = (res, t) ->
  stops res ->
  run (loop w env a (r :: post)) h = (res, t).
Proof.
  intros Hrun Hstop. rewrite loop_cons, Hrun.
  destruct res as [[[ | ] a'] | e]; simpl in Hstop; tauto.
Qed.

Lemma loop_app w env pre post : forall a h,
  run (loop w env a (pre ++ post)) h =
  match run (loop w env a pre) h with
  | (Ok (Continue, a'), t1) =>
      let (res, t2) := run (loop w env a' post) (h ++ t1) in (res, t1 ++ t2)
  | other => other
  end.
Proof.
  induction pre as [ | r pre IH]; intros a h.
  - simpl app. unfold loop at 2. unfold run at 2, ret. rewrite app_nil_r.
    now destruct (run (loop w env a post) h).
  - rewrite <- app_comm_cons, !loop_cons.
    destruct (run (process_record w env a r) h) as [[[[ | ] a'] | e] t1]; try reflexivity.
    rewrite IH.
    destruct (run (loop w env a' pre) (h ++ t1)) as [[[[ | ] a''] | e] t2]; try reflexivity.
    rewrite <- app_assoc.
    destruct (run (loop w env a'' post) (h ++ t1 ++ t2)) as [res t3].
    now rewrite app_assoc.
Qed.

(** A record that does not go past the screening ends the loop with the
    events of the screening alone. *)
Lemma process_record_screened w env a r h :
  (forall p t, run (screen r) h <> (Ok (Some p), t)) ->
  exists res,
    run (process_record w env a r) h = (res, snd (run (screen r) h)) /\ stops res.
Proof.
  intros Hno. unfold process_record. rewrite run_bind.
  destruct (run (screen r) h) as [[[p | ] | e] t] eqn:Hs.
  - exfalso. now apply (Hno p t).
  - exists (Ok (Return, a)). simpl. unfold run, ret. now rewrite app_nil_r.
  - exists (Err e). simpl. auto.
Qed.

(** ** The early exit *)

(** C1.  When the decoded payload of a record has [detail.agentConnected]
    not explicitly [false], or [detail.status] not ["ACTIVE"], the batch
    stops at that record: the records after it change neither the outcome
    nor the events of the invocation, and what the record itself adds to the
    events of the records before it contains no request to a service (no
    node query, no notification). *)
Theorem early_exit_stops_batch w env pre payload post :
  detail_field payload "agentConnected" <> Some (PBool false)
  \/ detail_field payload "status" <> Some (PStr "ACTIVE") ->
  handler w env (pre ++ BodyJson payload :: post)
  = handler w env (pre ++ [BodyJson payload])
  /\ exists t,
       snd (handler w env (pre ++ [BodyJson payload])) = snd (handler w env pre) ++ t
       /\ requests t = [].
Proof.
  intros Hdecl.
  assert (Hno : forall h p t, run (screen (BodyJson payload)) h <> (Ok (Some p), t)).
  { intros h p t Hrun. apply screen_proceeds in Hrun as (Hp & _ & _ & Hc & Hs & _).
    injection Hp as <-. tauto. }
  rewrite !handler_loop, !loop_app.
  destruct (run (loop w env [] pre) [start_line]) as [[[[ | ] a'] | e] t1].
  - destruct (process_record_screened w env a' (BodyJson payload) ([start_line] ++ t1)
                (Hno _)) as (res & Hrun & Hstop).
    rewrite (loop_cons_stop _ _ _ _ post _ _ _ Hrun Hstop).
    rewrite (loop_cons_stop _ _ _ _ [] _ _ _ Hrun Hstop).
    split; [ reflexivity | ].
    eexists. split; [ simpl; reflexivity | ].
    now apply (screen_only_logs is_request).
  - split; [ reflexivity | ]. exists []. simpl. now rewrite app_nil_r.
  - split; [ reflexivity | ]. exists []. simpl. now rewrite app_nil_r.
Qed.

Lemma bind_ret {E A B} (a : A) (k : A -> M E B) h :
  run (bind (ret a) k) h = run (k a) (h ++ []).
Proof.
  rewrite run_bind. unfold run at 1, ret.
  now destruct (run (k a) (h ++ [])).
Qed.

Lemma getitem_field v k x : field v k = Some x -> getitem v k = ret x.
Proof.
  destruct v; simpl; try discriminate. now intros ->.
Qed.

Lemma detail_field_inv p k x :
  detail_field p k = Some x ->
  exists detail, field p "detail" = Some detail /\ field detail k = Some x.
Proof.
  unfold detail_field. destruct (field p "detail") as [detail | ]; [ | discriminate ].
  intros H. now exists detail.
Qed.

Lemma py_ne_str_true v lit : v <> PStr lit -> py_ne_str v lit = true.
Proof.
  destruct v; simpl; auto. intros Hne. apply negb_true_iff, String.eqb_neq.
  congruence.
Qed.

Lemma py_ne_str_same lit : py_ne_str (PStr lit) lit = false.
Proof. simpl. now rewrite String.eqb_refl. Qed.

Lemma is_not_False_true v : v <> PBool false -> is_not_False v = true.
Proof. destruct v as [ | [ | ] | | | | | ]; simpl; congruence. Qed.

Lemma bind_assoc {E A B C} (m : M E A) (f : A -> M E B) (k : B -> M E C) h :
  run (bind (bind m f) k) h = run (bind m (fun a => bind (f a) k)) h.
Proof.
  rewrite !run_bind. destruct (run m h) as [[a | e] t1]; [ | reflexivity ].
  rewrite run_bind. destruct (run (f a) (h ++ t1)) as [[b | e] t2]; [ | reflexivity ].
  rewrite <- app_assoc. destruct (run (k b) (h ++ t1 ++ t2)) as [r t3].
  now rewrite app_assoc.
Qed.

Lemma run_ret {E A} (a : A) h : run (@ret E A a) h = (Ok a, []).
Proof. reflexivity. Qed.

Lemma run_raise {E A} (e : E) h : run (@raise E A e) h = (Err e, []).
Proof. reflexivity. Qed.

Lemma bind_raise {E A B} (e : E) (k : A -> M E B) h :
  run (bind (raise e) k) h = (Err e, []).
Proof. reflexivity. Qed.

(** Runs the leading steps of a sequence whose results are known. *)
Ltac mnorm :=
  repeat (rewrite ?bind_assoc, ?bind_ret, ?bind_emit, ?bind_raise, ?run_ret, ?run_raise,
            ?app_nil_r;
          cbv iota beta).

Ltac mnorm_in H :=
  repeat (rewrite ?bind_assoc, ?bind_ret, ?bind_emit, ?bind_raise, ?run_ret, ?run_raise,
            ?app_nil_r in H;
          cbv iota beta in H).

(** The screening of an event of the supported kind whose declared
    [agentConnected] is anything but [False]. *)
Lemma screen_not_False p h detail connected :
  field p "source" = Some (PStr "aws.ecs") ->
  field p "detail-type" = Some (PStr "ECS Container Instance State Change") ->
  field p "detail" = Some detail ->
  field detail "agentConnected" = Some connected ->
  connected <> PBool false ->
  run (screen (BodyJson p)) h = (Ok None, [processing_line; skip_line]).
Proof.
  intros Hsrc Hdt Hdet Hcon Hne.
  unfold screen, logger_info, json_loads. mnorm.
  destruct p; try (simpl in Hsrc; discriminate).
  rewrite (getitem_field _ _ _ Hsrc). mnorm. rewrite py_ne_str_same. mnorm.
  rewrite (getitem_field _ _ _ Hdt). mnorm. rewrite py_ne_str_same. mnorm.
  rewrite (getitem_field _ _ _ Hdet). mnorm.
  rewrite (getitem_field _ _ _ Hcon). mnorm.
  rewrite (is_not_False_true _ Hne). mnorm. reflexivity.
Qed.

(** The screening of an event of the supported kind that declares the agent
    disconnected: the declared status decides. *)
Lemma screen_False p h detail status :
  field p "source" = Some (PStr "aws.ecs") ->
  field p "detail-type" = Some (PStr "ECS Container Instance State Change") ->
  field p "detail" = Some detail ->
  field detail "agentConnected" = Some (PBool false) ->
  field detail "status" = Some status ->
  run (screen (BodyJson p)) h =
  if py_ne_str status "ACTIVE" then (Ok None, [processing_line; skip_line])
  else (Ok (Some p), [processing_line]).
Proof.
  intros Hsrc Hdt Hdet Hcon Hst.
  unfold screen, logger_info, json_loads. mnorm.
  destruct p; try (simpl in Hsrc; discriminate).
  rewrite (getitem_field _ _ _ Hsrc). mnorm. rewrite py_ne_str_same. mnorm.
  rewrite (getitem_field _ _ _ Hdt). mnorm. rewrite py_ne_str_same. mnorm.
  rewrite (getitem_field _ _ _ Hdet). mnorm.
  rewrite (getitem_field _ _ _ Hcon). mnorm. simpl is_not_False. mnorm.
  rewrite (getitem_field _ _ _ Hst). mnorm.
  destruct (py_ne_str status "ACTIVE"); mnorm; reflexivity.
Qed.

Lemma process_record_return w env a r h t :
  run (screen r) h = (Ok None, t) ->
  run (process_record w env a r) h = (Ok (Return, a), t).
Proof.
  intros Hs. unfold process_record. rewrite run_bind, Hs, run_ret.
  now rewrite app_nil_r.
Qed.

Lemma process_record_screen_error w env a r h e t :
  run (screen r) h = (Err e, t) ->
  run (process_record w env a r) h = (Err e, t).
Proof. intros Hs. unfold process_record. now rewrite run_bind, Hs. Qed.

Lemma screen_malformed r h :
  malformed_payload r ->
  exists e, run (screen r) h = (Err e, [processing_line]).
Proof.
  intros [ | text | ]; eexists; unfold screen, logger_info, json_loads; mnorm;
    reflexivity.
Qed.

Lemma screen_unsupported p h :
  unsupported_event p ->
  run (screen (BodyJson p)) h =
  (Err (mkExc ValueError
          "Only 'aws.ecs' events and Instance state changes are supported."),
   [processing_line]).
Proof.
  intros Hu. unfold screen, logger_info, json_loads. mnorm.
  destruct Hu as [(s & Hsrc & Hne) | (Hsrc & d & Hdt & Hne)];
    (destruct p; try (simpl in Hsrc; discriminate));
    rewrite (getitem_field _ _ _ Hsrc); mnorm.
  - rewrite (py_ne_str_true _ _ Hne). mnorm. reflexivity.
  - rewrite py_ne_str_same. mnorm. rewrite (getitem_field _ _ _ Hdt). mnorm.
    rewrite (py_ne_str_true _ _ Hne). mnorm. reflexivity.
Qed.

Lemma screen_no_alarm p h :
  supported_event p -> declares_no_alarm p ->
  run (screen (BodyJson p)) h = (Ok None, [processing_line; skip_line]).
Proof.
  intros [Hsrc Hdt] [(c & Hc & Hne) | (Hc & s & Hs & Hne)].
  - apply detail_field_inv in Hc as (detail & Hdet & Hc).
    now apply (screen_not_False p h detail c).
  - apply detail_field_inv in Hc as (detail & Hdet & Hc).
    apply detail_field_inv in Hs as (detail' & Hdet' & Hs).
    rewrite Hdet in Hdet'. injection Hdet' as <-.
    rewrite (screen_False p h detail s); auto.
    now rewrite (py_ne_str_true _ _ Hne).
Qed.

(** C10.  Once the records before it have all been processed to the end,
    a record of the supported kind whose declared [agentConnected] is not
    explicitly [false], or whose declared [status] is not ["ACTIVE"], makes
    the handler return normally, with no exception; a malformed payload
    (no body, a body that is not JSON, the JSON value [null]) and an event of
    another kind each make it raise. *)
Theorem early_exit_is_normal_return w env pre post a t :
  run (loop w env [] pre) [start_line] = (Ok (Continue, a), t) ->
  (forall p,
      supported_event p -> declares_no_alarm p ->
      handler w env (pre ++ BodyJson p :: post)
      = (Returned, start_line :: t ++ [processing_line; skip_line]))
  /\ (forall r,
         malformed_payload r ->
         exists text,
           handler w env (pre ++ r :: post)
           = (Raised (mkExc Exception_ ("Error: execution error - " ++ text)),
              start_line :: t ++ [processing_line]))
  /\ (forall p,
         unsupported_event p ->
         handler w env (pre ++ BodyJson p :: post)
         = (Raised (mkExc Exception_
                      "Error: execution error - Only 'aws.ecs' events and Instance state changes are supported."),
            start_line :: t ++ [processing_line])).
Proof.
  intros Hpre. repeat split.
  - intros p Hsup Hdecl. rewrite handler_loop, loop_app, Hpre.
    rewrite (loop_cons_stop w env a (BodyJson p) post _ (Ok (Return, a))
               [processing_line; skip_line]); [ reflexivity | | exact I ].
    apply process_record_return. now apply screen_no_alarm.
  - intros r Hmal.
    destruct (screen_malformed r ([start_line] ++ t) Hmal) as (e & Hs).
    exists (exc_text e). rewrite handler_loop, loop_app, Hpre.
    rewrite (loop_cons_stop w env a r post _ (Err e) [processing_line]);
      [ reflexivity | | exact I ].
    now apply process_record_screen_error.
  - intros p Hu. rewrite handler_loop, loop_app, Hpre.
    rewrite (loop_cons_stop w env a (BodyJson p) post _ _ _
               (process_record_screen_error w env a _ _ _ _
                  (screen_unsupported p _ Hu)) I).
    reflexivity.
Qed.

(** ** Eligibility *)

Lemma is_ec2_running_run self h :
  run (is_ec2_running self) h =
  (Ok (isRunning self),
   if isRunning self then []
   else [Log INFO "ECS Container Instance [%s] is not running anymore."
           [AStr (ec2_id self)]]).
Proof.
  unfold is_ec2_running, isRunning, logger_info.
  destruct (String.eqb (instance_status self) "running"); mnorm; reflexivity.
Qed.

Lemma is_agent_connected_run self h :
  run (is_agent_connected self) h =
  (Ok (agent_connected self),
   [Log INFO
      (if agent_connected self
       then "ECS Agent for Container Instance [%s] is connected."
       else "ECS Agent for Container Instance [%s] remains with agentConnected status as false.")
      [AStr (ec2_id self)]]).
Proof.
  unfold is_agent_connected, logger_info.
  destruct (agent_connected self); mnorm; reflexivity.
Qed.

(** The decision once the monitoring of the cluster is settled. *)
Lemma eligible_after_monitoring self h :
  fst (run (running <- is_ec2_running self ;;
            if (running : bool) then
              connected <- is_agent_connected self ;;
              ret (negb connected)
            else ret false) h)
  = Ok (isRunning self && negb (agent_connected self)).
Proof.
  rewrite run_bind, is_ec2_running_run.
  destruct (isRunning self); [ | reflexivity ].
  rewrite run_bind, is_agent_connected_run. reflexivity.
Qed.

Lemma is_eligible_result w env self h :
  fst (run (is_eligible w env self) h) =
  if monitor_all env then Ok (isRunning self && negb (agent_connected self))
  else
    match fst (run (does_cluster_have_tags w self (monitoringTagKeyName env)
                      (monitoringTagKeyValue env)) h) with
    | Ok true => Ok (isRunning self && negb (agent_connected self))
    | Ok false => Ok false
    | Err e => Err e
    end.
Proof.
  unfold is_eligible. destruct (monitor_all env).
  - rewrite bind_ret. apply eligible_after_monitoring.
  - rewrite run_bind.
    destruct (run (does_cluster_have_tags _ _ _ _) h) as [[[ | ] | e] t1];
      try reflexivity.
    simpl fst.
    pose proof (eligible_after_monitoring self (h ++ t1)) as Hrest.
    destruct (run _ (h ++ t1)) as [r t2]. exact Hrest.
Qed.

(** C2.  The eligibility decision is true exactly when (all clusters are
    monitored, or the tag check of the cluster returns true) and the node is
    running and its agent is not connected.  In particular it is not true for
    a node that is not running, whatever the monitoring configuration, nor
    for a node whose agent is connected; for such nodes the decision is false
    whenever all clusters are monitored or the tag check returns. *)
Theorem eligibility_three_conditions w env self h :
  let decision := fst (run (is_eligible w env self) h) in
  let tag_check :=
    fst (run (does_cluster_have_tags w self (monitoringTagKeyName env)
                (monitoringTagKeyValue env)) h) in
  (decision = Ok true <->
   (monitor_all env = true \/ tag_check = Ok true)
   /\ isRunning self = true /\ agent_connected self = false)
  /\ (isRunning self = false -> decision <> Ok true)
  /\ (agent_connected self = true -> decision <> Ok true)
  /\ (isRunning self = false \/ agent_connected self = true ->
      (monitor_all env = true \/ exists b, tag_check = Ok b) ->
      decision = Ok false).
Proof.
  cbv zeta. rewrite is_eligible_result.
  destruct (monitor_all env);
    [ | destruct (fst (run (does_cluster_have_tags _ _ _ _) h)) as [[ | ] | e] ];
    destruct (isRunning self), (agent_connected self); simpl;
    repeat split; try congruence; try tauto;
    try (intros [[ | ] [? ?]]; congruence);
    try (intros _ [ | [b ?]]; congruence);
    try (intros [ | ]; congruence).
Qed.

(** ** The tag check of the cluster *)

Lemma run_catch {E E' A} (m : M E A) (handler : E -> M E' A) h :
  run (catch m handler) h =
  match run m h with
  | (Ok a, t1) => (Ok a, t1)
  | (Err e, t1) => let (r, t2) := run (handler e) (h ++ t1) in (r, t1 ++ t2)
  end.
Proof. reflexivity. Qed.

Lemma bind_call {A B} ev (oracle : trace -> api_result A) (k : A -> M api_failure B) h :
  run (bind (call ev oracle) k) h =
  match oracle h with
  | ApiOk a => let (r, t) := run (k a) (h ++ [ev]) in (r, ev :: t)
  | ApiClientError code message => (Err (ClientError code message), [ev])
  | ApiException text => (Err (Other (mkExc UpstreamError text)), [ev])
  end.
Proof.
  rewrite run_bind. unfold run at 1, call. now destruct (oracle h).
Qed.

Lemma filter_nonempty {A} (f : A -> bool) (l : list A) :
  match filter f l with _ :: _ => true | [] => false end = existsb f l.
Proof.
  induction l as [ | x l IH]; simpl; [ reflexivity | ].
  now destruct (f x).
Qed.

Lemma tag_matches_iff k v element :
  tag_matches k v element = true <-> key element = k /\ value element = v.
Proof.
  unfold tag_matches. now rewrite andb_true_iff, !String.eqb_eq.
Qed.

(** The check on a configured tag when the service describes the cluster. *)
Lemma does_cluster_have_tags_described w self k v h c rest :
  describe_clusters w h (cluster_arn self) = ApiOk (c :: rest) ->
  exists line,
    run (does_cluster_have_tags w self (Some k) (Some v)) h =
    (Ok (existsb (tag_matches k v) (tags c)),
     [DescribeClusters (cluster_arn self);
      Log INFO "Checking ECS cluster: [%s]" [AVal (cluster_arn self)];
      Log INFO "Looking for -> Tag key: [%s] - Tag value: [%s]" [AStr k; AStr v];
      Log INFO "Cluster Tags: %s" [ATags (tags c)];
      line])
    /\ is_request line = false.
Proof.
  intros Hdesc. unfold does_cluster_have_tags, logger_info.
  rewrite run_catch, bind_call, Hdesc. unfold index0. mnorm.
  rewrite <- filter_nonempty.
  destruct (filter (tag_matches k v) (tags c)) as [ | element found]; mnorm;
    eexists; split; reflexivity.
Qed.

(** C4.  With the tag key or the tag value absent the tag check returns
    false, with no event at all: no tag query, no error.  With both present,
    on the tags the service reports for the cluster, it sends the one tag
    query and returns true exactly when some tag has that key and that value,
    by equality of strings; with no tag, or none that matches, it returns
    false and raises nothing. *)
Theorem tag_check_fails_closed w self tag_key tag_value h :
  (tag_key = None \/ tag_value = None ->
   run (does_cluster_have_tags w self tag_key tag_value) h = (Ok false, []))
  /\ (forall k v c rest,
         tag_key = Some k -> tag_value = Some v ->
         describe_clusters w h (cluster_arn self) = ApiOk (c :: rest) ->
         let outcome := run (does_cluster_have_tags w self tag_key tag_value) h in
         requests (snd outcome) = [DescribeClusters (cluster_arn self)]
         /\ (fst outcome = Ok true <->
             exists element, In element (tags c)
                             /\ key element = k /\ value element = v)
         /\ (fst outcome = Ok false <->
             forall element, In element (tags c) ->
                             ~ (key element = k /\ value element = v))
         /\ (tags c = [] -> fst outcome = Ok false)).
Proof.
  split.
  - intros [-> | ->]; [ reflexivity | now destruct tag_key ].
  - intros k v c rest -> -> Hdesc. cbv zeta.
    destruct (does_cluster_have_tags_described w self k v h c rest Hdesc)
      as (line & -> & Hline).
    simpl fst. simpl snd. repeat split.
    + unfold requests. simpl. now rewrite Hline.
    + intros Heq. injection Heq as Heq. apply existsb_exists in Heq as (e & Hin & Hm).
      exists e. split; [ exact Hin | now apply tag_matches_iff ].
    + intros (e & Hin & Hm). f_equal. apply existsb_exists. exists e.
      split; [ exact Hin | now apply tag_matches_iff ].
    + intros Heq e Hin Hm. injection Heq as Heq.
      assert (existsb (tag_matches k v) (tags c) = true); [ | congruence ].
      apply existsb_exists. exists e. split; [ exact Hin | now apply tag_matches_iff ].
    + intros Hnone. f_equal. apply not_true_is_false. intros Hex.
      apply existsb_exists in Hex as (e & Hin & Hm).
      apply (Hnone e Hin). now apply tag_matches_iff.
    + intros ->. reflexivity.
Qed.

(** ** The resolution of a node *)

Lemma fetch_ec2_details_ok w arn cl h id st ac t :
  run (fetch_ec2_details w arn cl) h = (Ok (id, st, ac), t) ->
  exists ci cis,
    describe_container_instances w h cl arn = ApiOk (ci :: cis)
    /\ id = ci_ec2InstanceId ci /\ ac = ci_agentConnected ci
    /\ let h1 := h ++ [DescribeContainerInstances cl arn;
                       Log INFO "Checking node [%s]." [AStr id]] in
       if Re.match_ec2_id id then
         exists r rs i others,
           describe_instances w h1 id = ApiOk (r :: rs)
           /\ Instances r = i :: others /\ st = State_Name i
           /\ t = [DescribeContainerInstances cl arn;
                   Log INFO "Checking node [%s]." [AStr id];
                   DescribeInstances id]
       else
         exists info infos,
           describe_instance_information w h1 id = ApiOk (info :: infos)
           /\ st = (if String.eqb (PingStatus info) "Online"
                    then "running" else "not-running")
           /\ t = [DescribeContainerInstances cl arn;
                   Log INFO "Checking node [%s]." [AStr id];
                   DescribeInstanceInformation id].
Proof.
  unfold fetch_ec2_details, logger_info. rewrite run_catch, bind_call.
  destruct (describe_container_instances w h cl arn) as [[ | ci cis] | code msg | text];
    unfold index0; mnorm; try discriminate.
  rewrite <- app_assoc. simpl app.
  destruct (Re.match_ec2_id (ci_ec2InstanceId ci)) eqn:Hre; rewrite bind_assoc, bind_call.
  - destruct (describe_instances w _ (ci_ec2InstanceId ci))
      as [[ | [[ | i others]] rs] | code msg | text] eqn:Hdesc;
      simpl Instances; mnorm; try discriminate.
    intros Heq. injection Heq as <- <- <- <-.
    exists ci, cis. rewrite Hre. repeat split.
    exists {| Instances := i :: others |}, rs, i, others. repeat split. exact Hdesc.
  - destruct (describe_instance_information w _ (ci_ec2InstanceId ci))
      as [[ | info infos] | code msg | text] eqn:Hdesc; mnorm; try discriminate.
    destruct (String.eqb (PingStatus info) "Online") eqn:Hping; mnorm;
      intros Heq; injection Heq as <- <- <- <-;
      exists ci, cis; rewrite Hre; repeat split;
      exists info, infos; rewrite Hping; repeat split; exact Hdesc.
Qed.

Lemma ECSNode_init_ok w arn cl h self t :
  run (ECSNode_init w arn cl) h = (Ok self, t) ->
  run (fetch_ec2_details w arn cl) h
  = (Ok (ec2_id self, instance_status self, agent_connected self), t)
  /\ cluster_arn self = cl.
Proof.
  unfold ECSNode_init. rewrite run_bind.
  destruct (run (fetch_ec2_details w arn cl) h) as [[[[id st] ac] | e] t1];
    [ | discriminate ].
  rewrite run_ret, app_nil_r. intros Heq. injection Heq as <- <-. auto.
Qed.

(** C6.  For a node that was resolved, [is_ec2_running] is true exactly when
    the resolved status is ["running"].  When the node identifier takes the
    virtual-machine path the status is the state name the compute service
    reports for the instance; otherwise it is ["running"] when the reported
    ping status is ["Online"] and ["not-running"] when it is anything else. *)
Theorem running_predicate w arn cl h self t :
  run (ECSNode_init w arn cl) h = (Ok self, t) ->
  let h1 := h ++ [DescribeContainerInstances cl arn;
                  Log INFO "Checking node [%s]." [AStr (ec2_id self)]] in
  (forall h', fst (run (is_ec2_running self) h') = Ok true
              <-> instance_status self = "running")
  /\ (forall h', fst (run (is_ec2_running self) h') = Ok false
                 <-> instance_status self <> "running")
  /\ (Re.match_ec2_id (ec2_id self) = true ->
      exists r rs i others,
        describe_instances w h1 (ec2_id self) = ApiOk (r :: rs)
        /\ Instances r = i :: others
        /\ instance_status self = State_Name i)
  /\ (Re.match_ec2_id (ec2_id self) = false ->
      exists info infos,
        describe_instance_information w h1 (ec2_id self) = ApiOk (info :: infos)
        /\ (PingStatus info = "Online" -> instance_status self = "running")
        /\ (PingStatus info <> "Online" -> instance_status self = "not-running")).
Proof.
  intros Hinit. apply ECSNode_init_ok in Hinit as [Hfetch _].
  apply fetch_ec2_details_ok in Hfetch as (ci & cis & _ & _ & _ & Hpath).
  cbv zeta in *. repeat split.
  - rewrite is_ec2_running_run. simpl. intros Heq. injection Heq as Heq.
    now apply String.eqb_eq.
  - intros Heq. rewrite is_ec2_running_run. simpl. f_equal.
    now apply String.eqb_eq.
  - rewrite is_ec2_running_run. simpl. intros Heq. injection Heq as Heq.
    now apply String.eqb_neq.
  - intros Hne. rewrite is_ec2_running_run. simpl. f_equal.
    now apply String.eqb_neq.
  - intros Hre. rewrite Hre in Hpath.
    destruct Hpath as (r & rs & i & others & Hdesc & Hinst & Hst & _).
    now exists r, rs, i, others.
  - intros Hre. rewrite Hre in Hpath.
    destruct Hpath as (info & infos & Hdesc & Hst & _).
    exists info, infos. split; [ exact Hdesc | ].
    destruct (String.eqb_spec (PingStatus info) "Online") as [Heq | Hne];
      split; intros; congruence.
Qed.

(** ** Alerts and their deduplication *)

Lemma strip_prefix_app p s : strip_prefix p (p ++ s) = Some s.
Proof.
  induction p as [ | a p IH]; simpl; [ now destruct s | ].
  now rewrite Ascii.eqb_refl.
Qed.

Lemma alerted_node_subject topic node_id body :
  alerted_node (Publish topic (email_subject_of node_id) body) = Some node_id.
Proof. unfold alerted_node, email_subject_of. apply strip_prefix_app. Qed.

Lemma dispatched_app t1 t2 : dispatched (t1 ++ t2) = dispatched t1 ++ dispatched t2.
Proof.
  induction t1 as [ | e t1 IH]; simpl; [ reflexivity | ].
  destruct (alerted_node e); simpl; now rewrite IH.
Qed.

Lemma dispatched_none t : filter is_publish t = [] -> dispatched t = [].
Proof.
  induction t as [ | e t IH]; simpl; [ reflexivity | ].
  destruct e; simpl; auto; discriminate.
Qed.

Lemma dispatched_alert text topic node_id body rest :
  dispatched (sending_line text :: Publish topic (email_subject_of node_id) body :: rest)
  = node_id :: dispatched rest.
Proof.
  change (dispatched (sending_line text
                        :: Publish topic (email_subject_of node_id) body :: rest))
    with (match alerted_node (Publish topic (email_subject_of node_id) body) with
          | Some n => n :: dispatched rest
          | None => dispatched rest
          end).
  now rewrite alerted_node_subject.
Qed.

Lemma dispatched_no_request t : filter is_request t = [] -> dispatched t = [].
Proof.
  induction t as [ | e t IH]; simpl; [ reflexivity | ].
  destruct e; simpl; auto; discriminate.
Qed.

Lemma existsb_eqb_In node_id (l : list string) :
  existsb (String.eqb node_id) l = true <-> In node_id l.
Proof.
  rewrite existsb_exists. split.
  - intros (x & Hin & Heq). apply String.eqb_eq in Heq. now subst.
  - intros Hin. exists node_id. split; [ exact Hin | apply String.eqb_refl ].
Qed.

Lemma send_email_run w topic subject body h :
  run (send_email w topic subject body) h =
  (match publish w h topic subject body with
   | ApiOk _ => Ok tt
   | ApiClientError code message =>
       Err (mkExc Exception_
              ("Error: An error occurred when sending the e-mail - "
                 ++ fmt_opt code ++ " : " ++ fmt_opt message))
   | ApiException text =>
       Err (mkExc Exception_
              ("Error: An error occurred when sending the e-mail - " ++ text))
   end,
   [Publish topic subject body]).
Proof.
  unfold send_email. rewrite run_catch. unfold run at 1, call.
  destruct (publish w h topic subject body) as [[] | code message | text];
    reflexivity.
Qed.

(** A node already in the list gets no notification. *)
Lemma alert_suppressed w env a self h :
  In (ec2_id self) a ->
  run (alert w env a self) h = (Ok a, [avoiding_line (ec2_id self)]).
Proof.
  intros Hin. apply existsb_eqb_In in Hin. unfold alert, logger_info.
  simpl ec2InstanceId. rewrite Hin. mnorm. reflexivity.
Qed.

(** A node not yet in the list gets one notification, and is in the list
    when the alert is over. *)
Lemma alert_dispatched w env a self h :
  ~ In (ec2_id self) a ->
  exists res rest,
    run (alert w env a self) h
    = (res,
       sending_line (notification_text_of w self)
         :: Publish (sendEmailNotification env) (email_subject_of (ec2_id self))
              (notification_text_of w self)
         :: rest)
    /\ filter is_request rest = []
    /\ forall a', res = Ok a' -> a' = a ++ [ec2_id self].
Proof.
  intros Hin. rewrite <- existsb_eqb_In in Hin. apply not_true_is_false in Hin.
  unfold alert, logger_info, logger_warning, custom_actions. simpl ec2InstanceId.
  rewrite Hin. cbv zeta. mnorm. rewrite run_bind, send_email_run.
  destruct (publish w _ _ _ _) as [[] | code msg | text]; mnorm.
  - simpl clusterArn. unfold index1.
    destruct (rsplit1 "/" (py_str w (cluster_arn self))) as [ | x [ | short l]];
      mnorm; do 2 eexists; (split; [ reflexivity | ]); split;
      try reflexivity; intros a' Heq; congruence.
  - do 2 eexists. split; [ reflexivity | ]. split; [ reflexivity | ].
    intros a' Heq. discriminate.
  - do 2 eexists. split; [ reflexivity | ]. split; [ reflexivity | ].
    intros a' Heq. discriminate.
Qed.

Lemma avoids_fetch_ec2_details P w arn cl :
  (forall level fmt args, P (Log level fmt args) = false) ->
  P (DescribeContainerInstances cl arn) = false ->
  (forall node_id, P (DescribeInstances node_id) = false) ->
  (forall node_id, P (DescribeInstanceInformation node_id) = false) ->
  avoids P (fetch_ec2_details w arn cl).
Proof.
  intros Hlog Hci Hi Hinfo. unfold fetch_ec2_details, logger_info.
  repeat first
    [ solve [ auto with avoids_db ]
    | apply avoids_emit; apply Hlog
    | apply avoids_call; first [ exact Hci | apply Hi | apply Hinfo ]
    | apply avoids_bind; [ | intros ? ]
    | apply avoids_catch; [ | intros ? ]
    | match goal with
      | |- avoids _ (match ?x with _ => _ end) => destruct x
      | |- avoids _ (if ?b then _ else _) => destruct b
      end ].
Qed.

Lemma avoids_resolve P w p :
  (forall level fmt args, P (Log level fmt args) = false) ->
  (forall cl arn, P (DescribeContainerInstances cl arn) = false) ->
  (forall node_id, P (DescribeInstances node_id) = false) ->
  (forall node_id, P (DescribeInstanceInformation node_id) = false) ->
  avoids P (resolve w p).
Proof.
  intros Hlog Hci Hi Hinfo. unfold resolve, ECSNode_init.
  do 4 (apply avoids_bind; [ solve [ auto with avoids_db ] | intros ? ]).
  apply avoids_bind; [ now apply avoids_fetch_ec2_details | ].
  intros [[id st] ac]. auto with avoids_db.
Qed.

Lemma avoids_is_ec2_running P self :
  (forall level fmt args, P (Log level fmt args) = false) ->
  avoids P (is_ec2_running self).
Proof.
  intros Hlog h. rewrite is_ec2_running_run. simpl.
  destruct (isRunning self); simpl; [ reflexivity | now rewrite Hlog ].
Qed.

Lemma avoids_is_agent_connected P self :
  (forall level fmt args, P (Log level fmt args) = false) ->
  avoids P (is_agent_connected self).
Proof. intros Hlog h. rewrite is_agent_connected_run. simpl. now rewrite Hlog. Qed.

Lemma avoids_does_cluster_have_tags P w self k v :
  (forall level fmt args, P (Log level fmt args) = false) ->
  (forall cl, P (DescribeClusters cl) = false) ->
  avoids P (does_cluster_have_tags w self k v).
Proof.
  intros Hlog Hcl. unfold does_cluster_have_tags, logger_info.
  repeat first
    [ solve [ auto with avoids_db ]
    | apply avoids_emit; apply Hlog
    | apply avoids_call; apply Hcl
    | apply avoids_bind; [ | intros ? ]
    | apply avoids_catch; [ | intros ? ]
    | match goal with
      | |- avoids _ (match ?x with _ => _ end) => destruct x
      end ].
Qed.

(** The decision sends nothing but, at most, the tag query. *)
Lemma avoids_is_eligible P w env self :
  (forall level fmt args, P (Log level fmt args) = false) ->
  (forall cl, P (DescribeClusters cl) = false) ->
  avoids P (is_eligible w env self).
Proof.
  intros Hlog Hcl. unfold is_eligible.
  apply avoids_bind.
  - destruct (monitor_all env); [ auto with avoids_db | ].
    now apply avoids_does_cluster_have_tags.
  - intros [ | ]; [ | auto with avoids_db ].
    apply avoids_bind; [ now apply avoids_is_ec2_running | ].
    intros [ | ]; [ | auto with avoids_db ].
    apply avoids_bind; [ now apply avoids_is_agent_connected | ].
    auto with avoids_db.
Qed.

(** When all clusters are monitored the decision does not query the tags. *)
Lemma is_eligible_monitor_all w env self :
  monitor_all env = true -> avoids is_tag_query (is_eligible w env self).
Proof.
  intros Hall. unfold is_eligible. rewrite Hall.
  apply avoids_bind; [ auto with avoids_db | ].
  intros [ | ]; [ | auto with avoids_db ].
  apply avoids_bind; [ now apply avoids_is_ec2_running | ].
  intros [ | ]; [ | auto with avoids_db ].
  apply avoids_bind; [ now apply avoids_is_agent_connected | ].
  auto with avoids_db.
Qed.

Lemma avoids_alert_tag_query w env a self : avoids is_tag_query (alert w env a self).
Proof.
  unfold alert, send_email, logger_info, logger_warning, custom_actions.
  avoids_tac.
Qed.

(** What one record does to the list of the nodes already processed: it
    leaves the list as it is and dispatches nothing, or it dispatches one
    notification, for a node that was not in the list, and adds that node. *)
Lemma process_record_dedup w env a r h res t :
  run (process_record w env a r) h = (res, t) ->
  (dispatched t = [] /\ forall f a', res = Ok (f, a') -> a' = a)
  \/ (exists node_id,
         ~ In node_id a /\ dispatched t = [node_id]
         /\ forall f a', res = Ok (f, a') -> a' = a ++ [node_id]).
Proof.
  unfold process_record. rewrite run_bind.
  pose proof (screen_only_logs is_publish r (fun _ _ _ => eq_refl) h) as Hs.
  destruct (run (screen r) h) as [[[p | ] | e] t1]; simpl in Hs;
    apply dispatched_none in Hs.
  2:{ rewrite run_ret, app_nil_r. intros Heq. injection Heq as <- <-. left.
      split; [ exact Hs | ]. intros f a' Heq. now injection Heq as <- <-. }
  2:{ intros Heq. injection Heq as <- <-. left. split; [ exact Hs | discriminate ]. }
  rewrite run_bind.
  pose proof (avoids_resolve is_publish w p (fun _ _ _ => eq_refl)
                (fun _ _ => eq_refl) (fun _ => eq_refl) (fun _ => eq_refl)
                (h ++ t1)) as Hr.
  destruct (run (resolve w p) (h ++ t1)) as [[self | e] t2]; simpl in Hr;
    apply dispatched_none in Hr.
  2:{ intros Heq. injection Heq as <- <-. left. rewrite dispatched_app, Hs, Hr.
      split; [ reflexivity | discriminate ]. }
  rewrite run_bind.
  pose proof (avoids_is_eligible is_publish w env self (fun _ _ _ => eq_refl)
                (fun _ => eq_refl) ((h ++ t1) ++ t2)) as He.
  destruct (run (is_eligible w env self) ((h ++ t1) ++ t2)) as [[[ | ] | e] t3];
    simpl in He; apply dispatched_none in He.
  3:{ intros Heq. injection Heq as <- <-. left.
      rewrite !dispatched_app, Hs, Hr, He. split; [ reflexivity | discriminate ]. }
  2:{ unfold logger_info. mnorm. intros Heq. injection Heq as <- <-. left.
      rewrite !dispatched_app, Hs, Hr, He. split; [ reflexivity | ].
      intros f a' Heq. now injection Heq as <- <-. }
  rewrite run_bind.
  destruct (in_dec string_dec (ec2_id self) a) as [Hin | Hin].
  - rewrite (alert_suppressed w env a self _ Hin). mnorm.
    intros Heq. injection Heq as <- <-. left.
    rewrite !dispatched_app, Hs, Hr, He. split; [ reflexivity | ].
    intros f a' Heq. now injection Heq as <- <-.
  - destruct (alert_dispatched w env a self (((h ++ t1) ++ t2) ++ t3) Hin)
      as (res' & rest & -> & Hrest & Hres).
    apply dispatched_no_request in Hrest.
    intros Heq. right. exists (ec2_id self). split; [ exact Hin | ].
    destruct res' as [a'' | e]; mnorm_in Heq; injection Heq as <- <-.
    + rewrite !dispatched_app, Hs, Hr, He, dispatched_alert, Hrest.
      split; [ reflexivity | ].
      intros f a' Heq. injection Heq as <- <-. now apply Hres.
    + rewrite !dispatched_app, Hs, Hr, He, dispatched_alert, Hrest.
      split; [ reflexivity | discriminate ].
Qed.

(** Along the loop the list of the nodes already processed is the list it
    started with followed by the nodes of the notifications dispatched since,
    and it never holds a node twice. *)
Lemma loop_dedup w env rs : forall a h res t,
  run (loop w env a rs) h = (res, t) ->
  NoDup a ->
  NoDup (a ++ dispatched t)
  /\ forall f a', res = Ok (f, a') -> a' = a ++ dispatched t.
Proof.
  induction rs as [ | r rs IH]; intros a h res t Hrun Hnd.
  - simpl in Hrun. rewrite run_ret in Hrun. injection Hrun as <- <-.
    simpl. rewrite app_nil_r. split; [ exact Hnd | ].
    intros f a' Heq. now injection Heq as <- <-.
  - rewrite loop_cons in Hrun.
    destruct (run (process_record w env a r) h) as [res1 t1] eqn:Hstep.
    apply process_record_dedup in Hstep.
    assert (Hone : NoDup (a ++ dispatched t1)
                   /\ forall f a', res1 = Ok (f, a') -> a' = a ++ dispatched t1).
    { destruct Hstep as [[-> Hres] | (n & Hin & -> & Hres)].
      - rewrite app_nil_r. auto.
      - split; [ | exact Hres ].
        apply NoDup_app; repeat split; auto.
        + constructor; [ intros [] | constructor ].
        + intros x Hx [<- | []]. contradiction. }
    clear Hstep. destruct Hone as [Hnd1 Hres1].
    destruct res1 as [[[ | ] a1] | e].
    + destruct (run (loop w env a1 rs) (h ++ t1)) as [res2 t2] eqn:Hrest.
      injection Hrun as <- <-.
      rewrite (Hres1 _ _ eq_refl) in Hrest.
      apply IH in Hrest as [Hnd2 Hres2]; [ | exact Hnd1 ].
      rewrite dispatched_app, app_assoc. auto.
    + injection Hrun as <- <-. auto.
    + injection Hrun as <- <-. split; [ exact Hnd1 | discriminate ].
Qed.

Lemma handler_dispatched_NoDup w env records :
  NoDup (dispatched (snd (handler w env records))).
Proof.
  rewrite handler_loop.
  destruct (run (loop w env [] records) [start_line]) as [res t] eqn:Hrun.
  apply loop_dedup in Hrun as [Hnd _]; [ | constructor ].
  exact Hnd.
Qed.

(** An eligible record goes to the alert. *)
Lemma process_record_eligible w env a r h self t :
  eligible_for w env r h self t ->
  run (process_record w env a r) h =
  let (res, t') := run (alert w env a self) (h ++ t) in
  (match res with
   | Ok a' => Ok (Continue, a')
   | Err e => Err e
   end, t ++ t').
Proof.
  intros (p & t1 & t2 & t3 & Hs & Hr & He & ->).
  unfold process_record. rewrite run_bind, Hs, run_bind, Hr, run_bind.
  rewrite <- app_assoc, He, run_bind, <- !app_assoc.
  destruct (run (alert w env a self) (h ++ t1 ++ t2 ++ t3)) as [[a' | e] t4].
  - rewrite run_ret, app_nil_r, !app_assoc. reflexivity.
  - rewrite !app_assoc. reflexivity.
Qed.

(** The events of a batch go through the events of each record reached. *)
Lemma handler_trace_through w env pre r post a t0 res tr :
  run (loop w env [] pre) [start_line] = (Ok (Continue, a), t0) ->
  run (process_record w env a r) ([start_line] ++ t0) = (res, tr) ->
  exists rest,
    snd (handler w env (pre ++ r :: post)) = [start_line] ++ t0 ++ tr ++ rest.
Proof.
  intros Hpre Hstep. rewrite handler_loop, loop_app, Hpre, loop_cons, Hstep.
  destruct res as [[[ | ] a'] | e].
  - destruct (run (loop w env a' post) _) as [res2 t2]. now exists t2.
  - exists []. now rewrite app_nil_r.
  - exists []. now rewrite app_nil_r.
Qed.

(** C3.  Take a batch in which the records before [r] have all been
    processed to the end, and let [r] pass all the checks, resolve to a node
    and be eligible.  The list of the nodes already processed is then the
    list of the nodes a notification was dispatched for so far (it is empty
    at the start and grows only by a dispatch); over the whole batch no node
    gets two notifications and the node of [r] gets exactly one; if the node
    is already in the list, [r] is suppressed, with a log line and no
    dispatch; if it is not, [r] dispatches the notification and the node
    joins the list. *)
Theorem dedup_exactly_once w env pre r post a t0 self t1 :
  run (loop w env [] pre) [start_line] = (Ok (Continue, a), t0) ->
  eligible_for w env r ([start_line] ++ t0) self t1 ->
  let batch := pre ++ r :: post in
  let node_id := ec2_id self in
  a = dispatched t0
  /\ NoDup (dispatched (snd (handler w env batch)))
  /\ count_occ string_dec (dispatched (snd (handler w env batch))) node_id = 1
  /\ (In node_id a ->
      run (process_record w env a r) ([start_line] ++ t0)
      = (Ok (Continue, a), t1 ++ [avoiding_line node_id]))
  /\ (~ In node_id a ->
      exists res rest,
        run (process_record w env a r) ([start_line] ++ t0)
        = (res,
           t1 ++ sending_line (notification_text_of w self)
              :: Publish (sendEmailNotification env) (email_subject_of node_id)
                   (notification_text_of w self)
              :: rest)
        /\ dispatched rest = []
        /\ forall f a', res = Ok (f, a') -> a' = a ++ [node_id]).
Proof.
  intros Hpre Hel. cbv zeta.
  assert (Ha : a = dispatched t0).
  { apply loop_dedup in Hpre as [_ Hres]; [ | constructor ].
    now apply (Hres Continue). }
  assert (Hsup : In (ec2_id self) a ->
                 run (process_record w env a r) ([start_line] ++ t0)
                 = (Ok (Continue, a), t1 ++ [avoiding_line (ec2_id self)])).
  { intros Hin. rewrite (process_record_eligible w env a r _ self t1 Hel).
    now rewrite (alert_suppressed w env a self _ Hin). }
  assert (Hdis : ~ In (ec2_id self) a ->
                 exists res rest,
                   run (process_record w env a r) ([start_line] ++ t0)
                   = (res,
                      t1 ++ sending_line (notification_text_of w self)
                         :: Publish (sendEmailNotification env)
                              (email_subject_of (ec2_id self))
                              (notification_text_of w self)
                         :: rest)
                   /\ dispatched rest = []
                   /\ forall f a', res = Ok (f, a') -> a' = a ++ [ec2_id self]).
  { intros Hin. rewrite (process_record_eligible w env a r _ self t1 Hel).
    destruct (alert_dispatched w env a self (([start_line] ++ t0) ++ t1) Hin)
      as (res & rest & -> & Hrest & Hres).
    exists (match res with Ok a' => Ok (Continue, a') | Err e => Err e end), rest.
    split; [ reflexivity | ]. split; [ now apply dispatched_no_request | ].
    intros f a' Heq. destruct res as [a'' | e]; [ | discriminate ].
    injection Heq as <- <-. now apply Hres. }
  repeat split; auto.
  - apply handler_dispatched_NoDup.
  - apply NoDup_count_occ'; [ apply handler_dispatched_NoDup | ].
    destruct (in_dec string_dec (ec2_id self) a) as [Hin | Hin].
    + destruct (handler_trace_through w env pre r post a t0 _ _ Hpre (Hsup Hin))
        as (rest & ->).
      rewrite !dispatched_app, <- Ha. apply in_or_app. right.
      apply in_or_app. now left.
    + destruct (Hdis Hin) as (res & rest & Hstep & _ & _).
      destruct (handler_trace_through w env pre r post a t0 _ _ Hpre Hstep)
        as (rest' & ->).
      rewrite !dispatched_app, dispatched_alert.
      apply in_or_app. right. apply in_or_app. right. apply in_or_app. left.
      apply in_or_app. right. now left.
Qed.

(** ** Monitoring all clusters *)

Lemma monitor_all_true env s :
  checkAllClusters env = Some s ->
  lower s = "true" \/ lower s = "yes" ->
  monitor_all env = true.
Proof.
  intros Hs Hlow. unfold monitor_all. rewrite Hs. simpl.
  destruct Hlow as [-> | ->]; reflexivity.
Qed.

Lemma process_record_no_tag_query w env a r :
  monitor_all env = true -> avoids is_tag_query (process_record w env a r).
Proof.
  intros Hall. unfold process_record, logger_info.
  apply avoids_bind; [ now apply screen_only_logs | ].
  intros [p | ]; [ | auto with avoids_db ].
  apply avoids_bind; [ now apply avoids_resolve | ]. intros self.
  apply avoids_bind; [ now apply is_eligible_monitor_all | ].
  intros [ | ].
  - apply avoids_bind; [ apply avoids_alert_tag_query | ].
    intros a'. auto with avoids_db.
  - avoids_tac.
Qed.

Lemma loop_no_tag_query w env rs : forall a,
  monitor_all env = true -> avoids is_tag_query (loop w env a rs).
Proof.
  induction rs as [ | r rs IH]; intros a Hall; simpl loop.
  - auto with avoids_db.
  - apply avoids_bind; [ now apply process_record_no_tag_query | ].
    intros [[ | ] a']; [ now apply IH | auto with avoids_db ].
Qed.

(** With all clusters monitored a running node whose agent is disconnected
    is eligible, whatever the tag configuration. *)
Lemma is_eligible_monitor_all_true w env self h :
  monitor_all env = true ->
  isRunning self = true -> agent_connected self = false ->
  run (is_eligible w env self) h =
  (Ok true,
   [Log INFO "ECS Agent for Container Instance [%s] remains with agentConnected status as false."
      [AStr (ec2_id self)]]).
Proof.
  intros Hall Hrun Hcon. unfold is_eligible. rewrite Hall, bind_ret, run_bind.
  rewrite is_ec2_running_run, Hrun, run_bind, is_agent_connected_run, Hcon.
  reflexivity.
Qed.

(** C8.  When the value of [checkAllClusters], lower-cased, is ["true"] or
    ["yes"], no invocation ever sends the tag query, whatever the tag
    configuration is; and a record that passes the checks and resolves to a
    running node whose agent is disconnected, not alerted yet in the batch,
    gets its notification dispatched. *)
Theorem check_all_clusters_bypasses_tags w env s :
  checkAllClusters env = Some s ->
  lower s = "true" \/ lower s = "yes" ->
  (forall records, filter is_tag_query (snd (handler w env records)) = [])
  /\ (forall a r h p t1 self t2,
         run (screen r) h = (Ok (Some p), t1) ->
         run (resolve w p) (h ++ t1) = (Ok self, t2) ->
         isRunning self = true -> agent_connected self = false ->
         ~ In (ec2_id self) a ->
         exists res t,
           run (process_record w env a r) h = (res, t)
           /\ filter is_tag_query t = []
           /\ dispatched t = [ec2_id self]
           /\ In (Publish (sendEmailNotification env)
                    (email_subject_of (ec2_id self)) (notification_text_of w self)) t).
Proof.
  intros Hs Hlow. pose proof (monitor_all_true env s Hs Hlow) as Hall. split.
  - intros records. rewrite handler_loop.
    pose proof (loop_no_tag_query w env records [] Hall [start_line]) as Hq.
    destruct (run (loop w env [] records) [start_line]) as [res t].
    exact Hq.
  - intros a r h p t1 self t2 Hscreen Hres Hrun Hcon Hin.
    pose proof (process_record_no_tag_query w env a r Hall h) as Hq.
    pose proof (process_record_dedup w env a r h) as Hd.
    assert (Hel : eligible_for w env r h self
                    (t1 ++ t2 ++
                     [Log INFO "ECS Agent for Container Instance [%s] remains with agentConnected status as false."
                        [AStr (ec2_id self)]])).
    { exists p, t1, t2. eexists. repeat split; eauto.
      now apply is_eligible_monitor_all_true. }
    rewrite (process_record_eligible w env a r h self _ Hel) in *.
    destruct (alert_dispatched w env a self
                (h ++ t1 ++ t2 ++
                 [Log INFO "ECS Agent for Container Instance [%s] remains with agentConnected status as false."
                    [AStr (ec2_id self)]]) Hin)
      as (res & rest & Halert & Hrest & _).
    rewrite Halert in *. simpl snd in Hq. do 2 eexists. split; [ reflexivity | ].
    split; [ exact Hq | ]. split.
    + rewrite !dispatched_app, dispatched_alert.
      rewrite (dispatched_no_request rest Hrest).
      rewrite (dispatched_none t1), (dispatched_none t2); [ reflexivity | | ].
      * pose proof (avoids_resolve is_publish w p (fun _ _ _ => eq_refl)
                      (fun _ _ => eq_refl) (fun _ => eq_refl) (fun _ => eq_refl)
                      (h ++ t1)) as Hr.
        now rewrite Hres in Hr.
      * pose proof (screen_only_logs is_publish r (fun _ _ _ => eq_refl) h) as Hsl.
        now rewrite Hscreen in Hsl.
    + apply in_or_app. right. right. now left.
Qed.

(** ** Failures *)





(** ** The pattern of the node identifiers *)

#[local] Open Scope string_scope.

Lemma hex_class_lower_hex c : Re.hex_class c = occurs c "0123456789abcdef".
Proof. destruct c as [[] [] [] [] [] [] [] []]; reflexivity. Qed.

Lemma repeat_class_spec n : forall s rest,
  Re.repeat_class n s = Some rest <->
  exists hex, s = hex ++ rest /\ String.length hex = n /\ lower_hex hex = true.
Proof.
  induction n as [ | n IH]; intros s rest; simpl.
  - split.
    + intros Heq. injection Heq as ->. now exists "".
    + intros (hex & -> & Hlen & _). destruct hex; [ reflexivity | discriminate ].
  - destruct s as [ | c s].
    + split; [ discriminate | ].
      intros (hex & Heq & Hlen & _). destruct hex; discriminate.
    + rewrite hex_class_lower_hex. split.
      * destruct (occurs c "0123456789abcdef") eqn:Hc; [ | discriminate ].
        intros Hrep. apply IH in Hrep as (hex & -> & Hlen & Hhex).
        exists (String c hex).
        change (lower_hex (String c hex))
          with (occurs c "0123456789abcdef" && lower_hex hex).
        rewrite Hc, Hhex, <- Hlen. repeat split.
      * intros (hex & Heq & Hlen & Hhex). destruct hex as [ | c' hex]; [ discriminate | ].
        injection Heq as <- ->. injection Hlen as Hlen.
        change (lower_hex (String c hex))
          with (occurs c "0123456789abcdef" && lower_hex hex) in Hhex.
        apply andb_true_iff in Hhex as [-> Hhex]. apply IH. now exists hex.
Qed.

Lemma dollar_spec rest :
  Re.dollar rest = true <-> rest = "" \/ rest = String Re.newline "".
Proof.
  destruct rest as [ | c [ | c' rest]]; simpl.
  - split; auto.
  - rewrite Ascii.eqb_eq. split.
    + intros ->. now right.
    + intros [Heq | Heq]; [ discriminate | now injection Heq ].
  - split; [ discriminate | intros [Heq | Heq]; discriminate ].
Qed.

Lemma alternative_spec n s :
  Re.alternative n s = true <->
  exists hex, String.length hex = n /\ lower_hex hex = true
              /\ (s = hex \/ s = hex ++ String Re.newline "").
Proof.
  unfold Re.alternative. split.
  - destruct (Re.repeat_class n s) as [rest | ] eqn:Hrep; [ | discriminate ].
    intros Hd. apply dollar_spec in Hd.
    apply repeat_class_spec in Hrep as (hex & -> & Hlen & Hhex).
    exists hex. repeat split; auto.
    destruct Hd as [-> | ->]; [ left | now right ].
    clear. induction hex as [ | c hex IH]; simpl; [ reflexivity | now rewrite IH ].
  - intros (hex & Hlen & Hhex & Hs).
    assert (Hrep : exists rest, Re.repeat_class n s = Some rest /\ Re.dollar rest = true).
    { destruct Hs as [-> | ->].
      - exists "". split; [ | reflexivity ]. apply repeat_class_spec. exists hex.
        repeat split; auto.
        clear. induction hex as [ | c hex IH]; simpl; [ reflexivity | now rewrite <- IH ].
      - exists (String Re.newline ""). split; [ | reflexivity ].
        apply repeat_class_spec. now exists hex. }
    destruct Hrep as (rest & -> & Hd). exact Hd.
Qed.

(** The strings that take the virtual-machine path, among the strings over
    code points below 256: ["i-"], then eight or seventeen lowercase
    hexadecimal characters, then nothing or one newline. *)
Lemma match_ec2_id_spec node_id :
  Re.match_ec2_id node_id = true <->
  exists hex,
    (String.length hex = 8 \/ String.length hex = 17)
    /\ lower_hex hex = true
    /\ (node_id = "i-" ++ hex \/ node_id = "i-" ++ hex ++ String Re.newline "").
Proof.
  split.
  - destruct node_id as [ | c1 [ | c2 rest]]; try discriminate.
    + destruct c1 as [[] [] [] [] [] [] [] []]; discriminate.
    + destruct c1 as [[] [] [] [] [] [] [] []]; try discriminate.
      destruct c2 as [[] [] [] [] [] [] [] []]; try discriminate.
      simpl. intros Halt. apply orb_true_iff in Halt as [Halt | Halt];
        apply alternative_spec in Halt as (hex & Hlen & Hhex & Hs);
        exists hex; (split; [ auto | ]); (split; [ exact Hhex | ]);
        destruct Hs as [-> | ->]; auto.
  - intros (hex & Hlen & Hhex & Hs).
    assert (Halt : Re.alternative 8 hex = true \/ Re.alternative 17 hex = true
                   -> Re.match_ec2_id ("i-" ++ hex) = true).
    { simpl. intros [-> | ->]; [ reflexivity | apply orb_true_r ]. }
    assert (Halt' : Re.alternative 8 (hex ++ String Re.newline "") = true
                    \/ Re.alternative 17 (hex ++ String Re.newline "") = true
                    -> Re.match_ec2_id ("i-" ++ hex ++ String Re.newline "") = true).
    { simpl. intros [-> | ->]; [ reflexivity | apply orb_true_r ]. }
    destruct Hs as [-> | ->]; [ apply Halt | apply Halt' ];
      (destruct Hlen as [Hlen | Hlen]; [ left | right ]);
      apply alternative_spec; exists hex; auto.
Qed.

(** C5.  The identifiers of the specification are classified as it says:
    eight and seventeen hexadecimal digits after ["i-"] take the
    virtual-machine path, the managed-instance identifier does not.  But the
    identifier that has a newline after its eight digits matches the pattern
    too, though it is not ["i-"] followed by hexadecimal digits alone: its
    state is asked of the compute service. *)
Theorem ec2_pattern_accepts_trailing_newline :
  Re.match_ec2_id "i-0123abcd" = true
  /\ Re.match_ec2_id "i-0123456789abcdef0" = true
  /\ Re.match_ec2_id "mi-0123456789abcdef0" = false
  /\ Re.match_ec2_id Sample.newline_id = true
  /\ ~ (exists hex, lower_hex hex = true /\ Sample.newline_id = "i-" ++ hex)
  /\ run (fetch_ec2_details (Sample.world Sample.newline_id)
            (PStr Sample.instance_arn) (PStr Sample.prod)) []
     = (Ok (Sample.newline_id, "running", false),
        [DescribeContainerInstances (PStr Sample.prod) (PStr Sample.instance_arn);
         Log INFO "Checking node [%s]." [AStr Sample.newline_id];
         DescribeInstances Sample.newline_id]).
Proof.
  repeat split; try reflexivity.
  intros (hex & Hhex & Heq). unfold Sample.newline_id in Heq. simpl in Heq.
  injection Heq as <-. discriminate.
Qed.

(** ** The short name of the cluster *)

Lemma rsplit_last_none sep s : rsplit_last sep s = None <-> occurs sep s = false.
Proof.
  induction s as [ | c s IH]; simpl; [ tauto | ].
  destruct (rsplit_last sep s) as [[before after] | ].
  - split; [ discriminate | ].
    intros Hocc. apply orb_false_iff in Hocc as [_ Hocc].
    apply IH in Hocc. discriminate.
  - destruct (Ascii.eqb c sep); simpl; [ split; discriminate | ].
    split; [ intros _; now apply IH | reflexivity ].
Qed.

(** [rsplit_last] cuts at the last separator: no separator is left after
    the cut. *)
Lemma rsplit_last_some sep : forall s before after,
  rsplit_last sep s = Some (before, after) ->
  s = before ++ String sep after /\ occurs sep after = false.
Proof.
  induction s as [ | c s IH]; intros before after; simpl; [ discriminate | ].
  destruct (rsplit_last sep s) as [[b a] | ] eqn:Hs.
  - intros Heq. injection Heq as <- <-.
    destruct (IH b a eq_refl) as [-> Hocc]. auto.
  - destruct (Ascii.eqb_spec c sep) as [-> | Hne]; [ | discriminate ].
    intros Heq. injection Heq as <- <-. split; [ reflexivity | ].
    now apply rsplit_last_none.
Qed.

#[local] Open Scope list_scope.

(** After a notification that was sent, the alert of a cluster whose
    identifier has a ["/"] logs the part after the last ["/"] with the node
    identifier. *)
Lemma alert_short_name w env a self h before short :
  ~ In (ec2_id self) a ->
  publish w (h ++ [sending_line (notification_text_of w self)])
    (sendEmailNotification env) (email_subject_of (ec2_id self))
    (notification_text_of w self) = ApiOk tt ->
  rsplit_last "/" (py_str w (cluster_arn self)) = Some (before, short) ->
  run (alert w env a self) h
  = (Ok (a ++ [ec2_id self]),
     [sending_line (notification_text_of w self);
      Publish (sendEmailNotification env) (email_subject_of (ec2_id self))
        (notification_text_of w self);
      Log WARNING "%s %s" [AStr short; AStr (ec2_id self)]]).
Proof.
  intros Hin Hpub Hsplit. rewrite <- existsb_eqb_In in Hin.
  apply not_true_is_false in Hin.
  unfold alert, logger_info, logger_warning, custom_actions. simpl ec2InstanceId.
  rewrite Hin. cbv zeta. mnorm. rewrite run_bind, send_email_run.
  unfold sending_line in Hpub. rewrite Hpub.
  simpl clusterArn. unfold rsplit1. rewrite Hsplit. unfold index1. mnorm.
  reflexivity.
Qed.

(** After a notification that was sent, the alert of a cluster whose
    identifier has no ["/"] raises, and logs no short name. *)
Lemma alert_without_slash w env a self h :
  ~ In (ec2_id self) a ->
  publish w (h ++ [sending_line (notification_text_of w self)])
    (sendEmailNotification env) (email_subject_of (ec2_id self))
    (notification_text_of w self) = ApiOk tt ->
  occurs "/" (py_str w (cluster_arn self)) = false ->
  run (alert w env a self) h
  = (Err (mkExc IndexError "list index out of range"),
     [sending_line (notification_text_of w self);
      Publish (sendEmailNotification env) (email_subject_of (ec2_id self))
        (notification_text_of w self)]).
Proof.
  intros Hin Hpub Hocc. rewrite <- existsb_eqb_In in Hin.
  apply not_true_is_false in Hin. apply rsplit_last_none in Hocc.
  unfold alert, logger_info, logger_warning, custom_actions. simpl ec2InstanceId.
  rewrite Hin. cbv zeta. mnorm. rewrite run_bind, send_email_run.
  unfold sending_line in Hpub. rewrite Hpub.
  simpl clusterArn. unfold rsplit1. rewrite Hocc. unfold index1. mnorm.
  reflexivity.
Qed.

(** C9.  For an event whose cluster identifier is the short name
    ["default"], with all clusters monitored, the notification is sent and
    the handler then raises on the list index: the line that should carry the
    short name of the cluster and the node identifier is never logged.  With
    the identifier of the cluster as an ARN the line is logged. *)
Theorem short_name_undefined_without_slash :
  handler (Sample.world "i-0123abcd") Sample.all_clusters
    [BodyJson (Sample.payload "default" false "ACTIVE")]
  = (Raised (mkExc Exception_ "Error: execution error - list index out of range"),
     [start_line;
      processing_line;
      DescribeContainerInstances (PStr "default") (PStr Sample.instance_arn);
      Log INFO "Checking node [%s]." [AStr "i-0123abcd"];
      DescribeInstances "i-0123abcd";
      Log INFO "ECS Agent for Container Instance [%s] remains with agentConnected status as false."
        [AStr "i-0123abcd"];
      sending_line "[ISSUE] ECS Container Instance i-0123abcd from Cluster default has the ECS Agent disconnected.";
      Publish (Some Sample.topic) "[ISSUE] ECS Instance - i-0123abcd"
        "[ISSUE] ECS Container Instance i-0123abcd from Cluster default has the ECS Agent disconnected."])
  /\ handler (Sample.world "i-0123abcd") Sample.all_clusters [Sample.alarm]
     = (Returned,
        [start_line;
         processing_line;
         DescribeContainerInstances (PStr Sample.prod) (PStr Sample.instance_arn);
         Log INFO "Checking node [%s]." [AStr "i-0123abcd"];
         DescribeInstances "i-0123abcd";
         Log INFO "ECS Agent for Container Instance [%s] remains with agentConnected status as false."
           [AStr "i-0123abcd"];
         sending_line "[ISSUE] ECS Container Instance i-0123abcd from Cluster arn:aws:ecs:eu-west-1:111122223333:cluster/prod has the ECS Agent disconnected.";
         Publish (Some Sample.topic) "[ISSUE] ECS Instance - i-0123abcd"
           "[ISSUE] ECS Container Instance i-0123abcd from Cluster arn:aws:ecs:eu-west-1:111122223333:cluster/prod has the ECS Agent disconnected.";
         Log WARNING "%s %s" [AStr "prod"; AStr "i-0123abcd"]]).
Proof. split; vm_compute; reflexivity. Qed.

(** ** The properties on the sample deployment *)

(** An alarm, then a reconnection, then an alarm: the last one is not
    looked at, and the reconnection sends nothing. *)
Lemma early_exit_stops_batch_witness :
  handler (Sample.world "i-0123abcd") Sample.by_tag
    ([Sample.alarm] ++ BodyJson (Sample.payload Sample.prod true "ACTIVE")
       :: [Sample.alarm])
  = handler (Sample.world "i-0123abcd") Sample.by_tag
      ([Sample.alarm] ++ [BodyJson (Sample.payload Sample.prod true "ACTIVE")])
  /\ exists t,
       snd (handler (Sample.world "i-0123abcd") Sample.by_tag
              ([Sample.alarm] ++ [BodyJson (Sample.payload Sample.prod true "ACTIVE")]))
       = snd (handler (Sample.world "i-0123abcd") Sample.by_tag [Sample.alarm]) ++ t
       /\ requests t = [].
Proof.
  apply (early_exit_stops_batch (Sample.world "i-0123abcd") Sample.by_tag
           [Sample.alarm] (Sample.payload Sample.prod true "ACTIVE") [Sample.alarm]).
  left. vm_compute. discriminate.
Defined.

(** The sample node is eligible under the tag configuration. *)
Lemma eligibility_three_conditions_witness :
  fst (run (is_eligible (Sample.world "i-0123abcd") Sample.by_tag
              (Sample.node "i-0123abcd")) [])
  = Ok true.
Proof.
  destruct (eligibility_three_conditions (Sample.world "i-0123abcd") Sample.by_tag
              (Sample.node "i-0123abcd") []) as [[_ Hif] _].
  apply Hif. split; [ right; reflexivity | split; reflexivity ].
Defined.

(** Two alarms for the same node in one batch: one notification. *)
Lemma dedup_exactly_once_witness :
  count_occ string_dec
    (dispatched (snd (handler (Sample.world "i-0123abcd") Sample.by_tag
                        ([Sample.alarm] ++ Sample.alarm :: []))))
    "i-0123abcd"
  = 1
  /\ exists t1,
       run (process_record (Sample.world "i-0123abcd") Sample.by_tag
              ["i-0123abcd"] Sample.alarm)
           (snd (handler (Sample.world "i-0123abcd") Sample.by_tag [Sample.alarm]))
       = (Ok (Continue, ["i-0123abcd"]), t1 ++ [avoiding_line "i-0123abcd"]).
Proof.
  pose (t0 := tl (snd (handler (Sample.world "i-0123abcd") Sample.by_tag [Sample.alarm]))).
  pose (t1 := removelast
                (snd (run (process_record (Sample.world "i-0123abcd") Sample.by_tag
                             ["i-0123abcd"] Sample.alarm)
                          ([start_line] ++ t0)))).
  assert (Hpre : run (loop (Sample.world "i-0123abcd") Sample.by_tag [] [Sample.alarm])
                     [start_line] = (Ok (Continue, ["i-0123abcd"]), t0)).
  { vm_compute. reflexivity. }
  assert (Hel : eligible_for (Sample.world "i-0123abcd") Sample.by_tag Sample.alarm
                  ([start_line] ++ t0) (Sample.node "i-0123abcd") t1).
  { exists (Sample.payload Sample.prod false "ACTIVE").
    do 3 eexists. split; [ vm_compute; reflexivity | ].
    split; [ vm_compute; reflexivity | ].
    split; vm_compute; reflexivity. }
  destruct (dedup_exactly_once (Sample.world "i-0123abcd") Sample.by_tag
              [Sample.alarm] Sample.alarm [] ["i-0123abcd"] t0
              (Sample.node "i-0123abcd") t1 Hpre Hel)
    as (_ & _ & Hcount & Hsup & _).
  split; [ exact Hcount | ].
  exists t1. apply Hsup. now left.
Defined.

(** No tag key configured: false and no event; the configured tag on the
    tagged cluster: true. *)
Lemma tag_check_fails_closed_witness :
  run (does_cluster_have_tags (Sample.world "i-0123abcd") (Sample.node "i-0123abcd")
         None (Some "yes")) []
  = (Ok false, [])
  /\ fst (run (does_cluster_have_tags (Sample.world "i-0123abcd")
                 (Sample.node "i-0123abcd") (Some "monitor") (Some "yes")) [])
     = Ok true.
Proof.
  split.
  - apply (proj1 (tag_check_fails_closed (Sample.world "i-0123abcd")
                    (Sample.node "i-0123abcd") None (Some "yes") [])).
    now left.
  - destruct (proj2 (tag_check_fails_closed (Sample.world "i-0123abcd")
                       (Sample.node "i-0123abcd") (Some "monitor") (Some "yes") [])
                "monitor" "yes" {| tags := [ {| key := "monitor"; value := "yes" |} ] |}
                [] eq_refl eq_refl eq_refl) as (_ & Htrue & _).
    apply Htrue. exists {| key := "monitor"; value := "yes" |}.
    split; [ now left | split; reflexivity ].
Defined.

(** The sample node, resolved from its event, is running. *)
Lemma running_predicate_witness :
  fst (run (is_ec2_running (Sample.node "i-0123abcd")) []) = Ok true
  /\ exists r rs i others,
       describe_instances (Sample.world "i-0123abcd")
         ([] ++ [DescribeContainerInstances (PStr Sample.prod) (PStr Sample.instance_arn);
                 Log INFO "Checking node [%s]."
                   [AStr (ec2_id (Sample.node "i-0123abcd"))]])
         (ec2_id (Sample.node "i-0123abcd")) = ApiOk (r :: rs)
       /\ Instances r = i :: others
       /\ instance_status (Sample.node "i-0123abcd") = State_Name i.
Proof.
  destruct (running_predicate (Sample.world "i-0123abcd") (PStr Sample.instance_arn)
              (PStr Sample.prod) [] (Sample.node "i-0123abcd")
              [DescribeContainerInstances (PStr Sample.prod) (PStr Sample.instance_arn);
               Log INFO "Checking node [%s]." [AStr "i-0123abcd"];
               DescribeInstances "i-0123abcd"]
              eq_refl) as (Hrun & _ & Hvm & _).
  split; [ now apply Hrun | now apply Hvm ].
Defined.

(** All clusters monitored and no tag configured: no tag query, and the
    alarm is dispatched. *)
Lemma check_all_clusters_bypasses_tags_witness :
  filter is_tag_query
    (snd (handler (Sample.world "i-0123abcd") Sample.all_clusters
            [Sample.alarm; Sample.alarm])) = []
  /\ exists res t,
       run (process_record (Sample.world "i-0123abcd") Sample.all_clusters []
              Sample.alarm) [start_line] = (res, t)
       /\ filter is_tag_query t = []
       /\ dispatched t = [ec2_id (Sample.node "i-0123abcd")]
       /\ In (Publish (sendEmailNotification Sample.all_clusters)
                (email_subject_of (ec2_id (Sample.node "i-0123abcd")))
                (notification_text_of (Sample.world "i-0123abcd")
                   (Sample.node "i-0123abcd"))) t.
Proof.
  destruct (check_all_clusters_bypasses_tags (Sample.world "i-0123abcd")
              Sample.all_clusters "True" eq_refl (or_introl eq_refl)) as [Hnone Hall].
  split; [ apply Hnone | ].
  apply (Hall [] Sample.alarm [start_line] (Sample.payload Sample.prod false "ACTIVE")
           [processing_line] (Sample.node "i-0123abcd")
           [DescribeContainerInstances (PStr Sample.prod) (PStr Sample.instance_arn);
            Log INFO "Checking node [%s]." [AStr "i-0123abcd"];
            DescribeInstances "i-0123abcd"]);
    try reflexivity.
  intros [].
Defined.

(** At the head of a batch: a reconnection returns, a record with no body
    and an event of another service raise. *)
Lemma early_exit_is_normal_return_witness :
  handler (Sample.world "i-0123abcd") Sample.by_tag
    ([] ++ BodyJson (Sample.payload Sample.prod true "ACTIVE") :: [Sample.alarm])
  = (Returned, start_line :: [] ++ [processing_line; skip_line])
  /\ (exists text,
         handler (Sample.world "i-0123abcd") Sample.by_tag
           ([] ++ BodyMissing :: [Sample.alarm])
         = (Raised (mkExc Exception_ ("Error: execution error - " ++ text)),
            start_line :: [] ++ [processing_line]))
  /\ handler (Sample.world "i-0123abcd") Sample.by_tag
       ([] ++ BodyJson Sample.foreign :: [Sample.alarm])
     = (Raised (mkExc Exception_
                  "Error: execution error - Only 'aws.ecs' events and Instance state changes are supported."),
        start_line :: [] ++ [processing_line]).
Proof.
  destruct (early_exit_is_normal_return (Sample.world "i-0123abcd") Sample.by_tag
              [] [Sample.alarm] [] [] eq_refl) as (Hret & Hmal & Huns).
  split; [ | split ].
  - apply Hret.
    + split; reflexivity.
    + left. exists (PBool true). split; [ reflexivity | discriminate ].
  - apply Hmal. constructor.
  - apply Huns. left. exists (PStr "aws.ec2"). split; [ reflexivity | discriminate ].
Defined.

(** ** Further properties: the resolution of a node *)

Lemma fetch_requests w arn cl h :
  requests (snd (run (fetch_ec2_details w arn cl) h)) =
  match describe_container_instances w h cl arn with
  | ApiOk (ci :: _) =>
      [DescribeContainerInstances cl arn;
       if Re.match_ec2_id (ci_ec2InstanceId ci)
       then DescribeInstances (ci_ec2InstanceId ci)
       else DescribeInstanceInformation (ci_ec2InstanceId ci)]
  | _ => [DescribeContainerInstances cl arn]
  end.
Proof.
  unfold fetch_ec2_details, logger_info. rewrite run_catch, bind_call.
  destruct (describe_container_instances w h cl arn) as [[ | ci cis] | code msg | text];
    unfold index0; mnorm; try reflexivity.
  rewrite <- app_assoc. simpl app.
  destruct (Re.match_ec2_id (ci_ec2InstanceId ci)); rewrite bind_assoc, bind_call.
  - destruct (describe_instances w _ (ci_ec2InstanceId ci))
      as [[ | [[ | i others]] rs] | code msg | text];
      simpl Instances; mnorm; reflexivity.
  - destruct (describe_instance_information w _ (ci_ec2InstanceId ci))
      as [[ | info infos] | code msg | text]; mnorm; try reflexivity.
    destruct (String.eqb (PingStatus info) "Online"); mnorm; reflexivity.
Qed.

(** X1.  Once the container service has described the instance,
    [fetch_ec2_details] sends exactly one more request, whatever comes of it:
    to the compute service or to the node-management service, never to both.
    A node identifier that is ["i-"], eight or seventeen characters among
    [0-9] and [a-f], and at most one final newline, always goes to the
    compute service; so the node-management service is only asked about
    identifiers that are not of that form. *)
Theorem state_query_follows_pattern w arn cl h ci cis :
  describe_container_instances w h cl arn = ApiOk (ci :: cis) ->
  let node_id := ci_ec2InstanceId ci in
  let sent := requests (snd (run (fetch_ec2_details w arn cl) h)) in
  let instance_id :=
    exists hex,
      (String.length hex = 8 \/ String.length hex = 17)
      /\ lower_hex hex = true
      /\ (node_id = ("i-" ++ hex)%string
          \/ node_id = ("i-" ++ hex ++ String Re.newline "")%string) in
  (sent = [DescribeContainerInstances cl arn; DescribeInstances node_id]
   \/ sent = [DescribeContainerInstances cl arn; DescribeInstanceInformation node_id])
  /\ (instance_id ->
      sent = [DescribeContainerInstances cl arn; DescribeInstances node_id])
  /\ (sent = [DescribeContainerInstances cl arn; DescribeInstanceInformation node_id] ->
      ~ instance_id).
Proof.
  intros Hdesc. cbv zeta. rewrite fetch_requests, Hdesc. repeat split.
  - destruct (Re.match_ec2_id (ci_ec2InstanceId ci)); auto.
  - intros Hid. apply match_ec2_id_spec in Hid. now rewrite Hid.
  - intros Hsent Hid. apply match_ec2_id_spec in Hid. rewrite Hid in Hsent.
    discriminate.
Qed.

(** The identifier of a virtual machine goes to the compute service. *)
Lemma state_query_follows_pattern_witness :
  requests (snd (run (fetch_ec2_details (Sample.world "i-0123abcd")
                        (PStr Sample.instance_arn) (PStr Sample.prod)) []))
  = [DescribeContainerInstances (PStr Sample.prod) (PStr Sample.instance_arn);
     DescribeInstances "i-0123abcd"].
Proof.
  apply (proj1 (proj2 (state_query_follows_pattern (Sample.world "i-0123abcd")
                         (PStr Sample.instance_arn) (PStr Sample.prod) []
                         {| ci_ec2InstanceId := "i-0123abcd";
                            ci_agentConnected := false |} [] eq_refl))).
  exists "0123abcd"%string. repeat split; auto.
Defined.

(** X2.  An answer with an empty list (no container instance, no
    reservation, no instance in the first reservation, no managed instance)
    is an error of the resolution: [fetch_ec2_details] raises an [Exception]
    whose text ends with the message of the failed list index, and when the
    container instance itself is missing no state is asked for. *)
Theorem empty_answers_raise w arn cl h :
  let failure :=
    mkExc Exception_
      "Error: An error occurred when fetching instance details - list index out of range" in
  (describe_container_instances w h cl arn = ApiOk [] ->
   run (fetch_ec2_details w arn cl) h
   = (Err failure, [DescribeContainerInstances cl arn]))
  /\ (forall ci cis,
         describe_container_instances w h cl arn = ApiOk (ci :: cis) ->
         let node_id := ci_ec2InstanceId ci in
         let h1 := h ++ [DescribeContainerInstances cl arn;
                         Log INFO "Checking node [%s]." [AStr node_id]] in
         (if Re.match_ec2_id node_id
          then describe_instances w h1 node_id = ApiOk []
               \/ exists rs,
                    describe_instances w h1 node_id
                    = ApiOk ({| Instances := [] |} :: rs)
          else describe_instance_information w h1 node_id = ApiOk []) ->
         fst (run (fetch_ec2_details w arn cl) h) = Err failure).
Proof.
  cbv zeta. split.
  - intros Hdesc. unfold fetch_ec2_details. rewrite run_catch, bind_call, Hdesc.
    reflexivity.
  - intros ci cis Hdesc Hstate.
    unfold fetch_ec2_details, logger_info. rewrite run_catch, bind_call, Hdesc.
    unfold index0 at 1. mnorm. rewrite <- app_assoc. simpl app.
    destruct (Re.match_ec2_id (ci_ec2InstanceId ci));
      rewrite bind_assoc, bind_call.
    + destruct Hstate as [-> | (rs & ->)]; reflexivity.
    + rewrite Hstate. reflexivity.
Qed.

(** The compute service knows no instance of that identifier. *)
Lemma empty_answers_raise_witness :
  fst (run (fetch_ec2_details Scenario.without_instance
              (PStr Sample.instance_arn) (PStr Sample.prod)) [])
  = Err (mkExc Exception_
           "Error: An error occurred when fetching instance details - list index out of range").
Proof.
  apply (proj2 (empty_answers_raise Scenario.without_instance
                  (PStr Sample.instance_arn) (PStr Sample.prod) [])
           {| ci_ec2InstanceId := "i-0123abcd"; ci_agentConnected := false |} []
           eq_refl).
  left. reflexivity.
Defined.

(** ** Further properties: the tag check *)

(** X3.  When the tag query fails otherwise than by an error response (the
    answer describes no cluster, or the client raises another exception),
    the tag check raises an [Exception] with one fixed text, which does not
    hold the message of the failure; it has sent the one tag query. *)
Theorem tag_check_other_failures w self k v h :
  describe_clusters w h (cluster_arn self) = ApiOk []
  \/ (exists text, describe_clusters w h (cluster_arn self) = ApiException text) ->
  run (does_cluster_have_tags w self (Some k) (Some v)) h
  = (Err (mkExc Exception_ "Error: An error occurred when checking Cluster tags."),
     [DescribeClusters (cluster_arn self)]).
Proof.
  intros Hdesc. unfold does_cluster_have_tags. rewrite run_catch, bind_call.
  destruct Hdesc as [-> | (text & ->)]; reflexivity.
Qed.

Lemma tag_check_other_failures_witness :
  run (does_cluster_have_tags Scenario.without_tags_answer (Sample.node "i-0123abcd")
         (Some "monitor") (Some "yes")) []
  = (Err (mkExc Exception_ "Error: An error occurred when checking Cluster tags."),
     [DescribeClusters (cluster_arn (Sample.node "i-0123abcd"))]).
Proof.
  apply (tag_check_other_failures Scenario.without_tags_answer
           (Sample.node "i-0123abcd") "monitor" "yes" []).
  left. reflexivity.
Defined.

(** ** Further properties: the records of a batch *)

Lemma handler_head w env r post res t :
  run (process_record w env [] r) [start_line] = (res, t) ->
  stops res ->
  handler w env (r :: post) = (reraise res, start_line :: t).
Proof.
  intros Hstep Hstop. rewrite handler_loop.
  now rewrite (loop_cons_stop w env [] r post _ _ _ Hstep Hstop).
Qed.

Lemma alert_publish_fails w env a self h answer :
  ~ In (ec2_id self) a ->
  publish w (h ++ [sending_line (notification_text_of w self)])
    (sendEmailNotification env) (email_subject_of (ec2_id self))
    (notification_text_of w self) = answer ->
  answer <> ApiOk tt ->
  run (alert w env a self) h
  = (Err (mkExc Exception_
            ("Error: An error occurred when sending the e-mail - "
               ++ match answer with
                  | ApiClientError code message =>
                      fmt_opt code ++ " : " ++ fmt_opt message
                  | ApiException text => text
                  | ApiOk _ => ""
                  end)),
     [sending_line (notification_text_of w self);
      Publish (sendEmailNotification env) (email_subject_of (ec2_id self))
        (notification_text_of w self)]).
Proof.
  intros Hin Hpub Hfail. rewrite <- existsb_eqb_In in Hin.
  apply not_true_is_false in Hin.
  unfold alert, logger_info, logger_warning, custom_actions. simpl ec2InstanceId.
  rewrite Hin. cbv zeta. mnorm. rewrite run_bind, send_email_run.
  unfold sending_line in Hpub. rewrite Hpub.
  destruct answer as [[] | code message | text]; [ congruence | | ]; reflexivity.
Qed.

(** X4.  When the notification of an eligible node, not alerted yet in the
    batch, is refused or fails, the handler raises: the text names the
    sending of the e-mail and holds the code and the message of the error
    response (or the message of the exception), the events end with the
    publication that failed, and no later record is processed. *)
Theorem notification_failure_aborts w env pre r post a t0 self t1 answer :
  run (loop w env [] pre) [start_line] = (Ok (Continue, a), t0) ->
  eligible_for w env r ([start_line] ++ t0) self t1 ->
  ~ In (ec2_id self) a ->
  publish w ((([start_line] ++ t0) ++ t1)
               ++ [sending_line (notification_text_of w self)])
    (sendEmailNotification env) (email_subject_of (ec2_id self))
    (notification_text_of w self) = answer ->
  answer <> ApiOk tt ->
  handler w env (pre ++ r :: post)
  = (Raised
       (mkExc Exception_
          ("Error: execution error - Error: An error occurred when sending the e-mail - "
             ++ match answer with
                | ApiClientError code message =>
                    fmt_opt code ++ " : " ++ fmt_opt message
                | ApiException text => text
                | ApiOk _ => ""
                end)),
     [start_line] ++ t0 ++ t1
       ++ [sending_line (notification_text_of w self);
           Publish (sendEmailNotification env) (email_subject_of (ec2_id self))
             (notification_text_of w self)]).
Proof.
  intros Hpre Hel Hin Hpub Hfail.
  pose proof (process_record_eligible w env a r _ self t1 Hel) as Hstep.
  rewrite (alert_publish_fails w env a self _ answer Hin Hpub Hfail) in Hstep.
  rewrite handler_loop, loop_app, Hpre.
  now rewrite (loop_cons_stop w env a r post _ _ _ Hstep I).
Qed.

(** The publication is refused for the first of two alarms. *)
Lemma notification_failure_aborts_witness :
  fst (handler Scenario.with_publish_denied Sample.by_tag
         ([] ++ Sample.alarm :: [Sample.alarm]))
  = Raised
      (mkExc Exception_
         "Error: execution error - Error: An error occurred when sending the e-mail - AuthorizationError : Not authorized to publish.").
Proof.
  pose (t1 := removelast
                (removelast
                   (tl (snd (handler Scenario.with_publish_denied Sample.by_tag
                               [Sample.alarm]))))).
  assert (Hel : eligible_for Scenario.with_publish_denied Sample.by_tag Sample.alarm
                  ([start_line] ++ []) (Sample.node "i-0123abcd") t1).
  { exists (Sample.payload Sample.prod false "ACTIVE").
    do 3 eexists. split; [ vm_compute; reflexivity | ].
    split; [ vm_compute; reflexivity | ].
    split; vm_compute; reflexivity. }
  rewrite (notification_failure_aborts Scenario.with_publish_denied Sample.by_tag
             [] Sample.alarm [Sample.alarm] [] [] (Sample.node "i-0123abcd") t1
             (ApiClientError (Some "AuthorizationError")
                (Some "Not authorized to publish."))
             eq_refl Hel (fun H => H) eq_refl);
    [ reflexivity | discriminate ].
Defined.

(** X5.  A record that passes the checks and resolves to a node that is
    found not eligible is skipped: one log line, no notification, the list
    of the nodes already processed unchanged, and the loop goes on with the
    next record. *)
Theorem ineligible_record_is_skipped w env a r post h p t1 self t2 t3 :
  run (screen r) h = (Ok (Some p), t1) ->
  run (resolve w p) (h ++ t1) = (Ok self, t2) ->
  run (is_eligible w env self) (h ++ t1 ++ t2) = (Ok false, t3) ->
  let t := t1 ++ t2 ++ t3
           ++ [Log INFO
                 "Container Instance %s does not need to be checked. Execution successful!"
                 [AStr (ec2_id self)]] in
  run (process_record w env a r) h = (Ok (Continue, a), t)
  /\ dispatched t = []
  /\ run (loop w env a (r :: post)) h
     = (let (res, t') := run (loop w env a post) (h ++ t) in (res, t ++ t')).
Proof.
  intros Hs Hr He. cbv zeta.
  assert (Hstep : run (process_record w env a r) h
                  = (Ok (Continue, a),
                     t1 ++ t2 ++ t3
                       ++ [Log INFO
                             "Container Instance %s does not need to be checked. Execution successful!"
                             [AStr (ec2_id self)]])).
  { unfold process_record, logger_info.
    rewrite run_bind, Hs, run_bind, Hr, run_bind, <- app_assoc, He.
    mnorm. reflexivity. }
  split; [ exact Hstep | ]. split.
  - pose proof (process_record_dedup w env a r h _ _ Hstep) as [[Hd _] | Hd];
      [ exact Hd | ].
    destruct Hd as (n & Hin & _ & Hres).
    specialize (Hres Continue a eq_refl).
    assert (Hlen : length a = length (a ++ [n])) by now rewrite <- Hres.
    rewrite length_app in Hlen. simpl in Hlen. lia.
  - now rewrite loop_cons, Hstep.
Qed.

(** A stopped instance, then an alarm that is processed. *)
Lemma ineligible_record_is_skipped_witness :
  exists t,
    run (process_record Scenario.with_stopped_instance Sample.by_tag [] Sample.alarm)
        [start_line]
    = (Ok (Continue, []), t)
    /\ dispatched t = []
    /\ run (loop Scenario.with_stopped_instance Sample.by_tag []
              (Sample.alarm :: [Sample.alarm])) [start_line]
       = (let (res, t') :=
            run (loop Scenario.with_stopped_instance Sample.by_tag [] [Sample.alarm])
                ([start_line] ++ t) in
          (res, t ++ t')).
Proof.
  eexists.
  apply (ineligible_record_is_skipped Scenario.with_stopped_instance Sample.by_tag []
           Sample.alarm [Sample.alarm] [start_line]
           (Sample.payload Sample.prod false "ACTIVE") [processing_line]
           {| ec2_id := "i-0123abcd"; instance_status := "stopped";
              agent_connected := false; cluster_arn := PStr Sample.prod |}
           (snd (run (resolve Scenario.with_stopped_instance
                        (Sample.payload Sample.prod false "ACTIVE"))
                     ([start_line] ++ [processing_line])))
           (snd (run (is_eligible Scenario.with_stopped_instance Sample.by_tag
                        {| ec2_id := "i-0123abcd"; instance_status := "stopped";
                           agent_connected := false; cluster_arn := PStr Sample.prod |})
                     [])));
    reflexivity.
Defined.

Lemma getitem_missing entries k h :
  dict_lookup k entries = None ->
  run (getitem (PDict entries) k) h
  = (Err (mkExc KeyError ("'" ++ k ++ "'")), []).
Proof. intros Hk. unfold getitem. now rewrite Hk. Qed.

Lemma bind_getitem_missing {B} entries k (f : pyval -> M exc B) h :
  dict_lookup k entries = None ->
  run (bind (getitem (PDict entries) k) f) h
  = (Err (mkExc KeyError ("'" ++ k ++ "'")), []).
Proof. intros Hk. now rewrite run_bind, getitem_missing. Qed.

Lemma handler_head_screen_error w env r post e t :
  run (screen r) [start_line] = (Err e, t) ->
  handler w env (r :: post)
  = (Raised (mkExc Exception_ ("Error: execution error - " ++ exc_text e)),
     start_line :: t).
Proof.
  intros Hs.
  apply (handler_head w env r post (Err e) t); [ | exact I ].
  now apply process_record_screen_error.
Qed.

(** X6.  A key the handler reads and the event does not have makes the
    handler raise, with the quoted key as the text: [source]; [detail-type]
    when the source is the container service; [detail] and, inside it,
    [agentConnected] for an event of the supported kind; and [status] when
    the agent is declared disconnected. *)
Theorem missing_keys_raise w env entries post :
  let p := PDict entries in
  let raises key :=
    handler w env (BodyJson p :: post)
    = (Raised (mkExc Exception_ ("Error: execution error - '" ++ key ++ "'")),
       [start_line; processing_line]) in
  (field p "source" = None -> raises "source")
  /\ (field p "source" = Some (PStr "aws.ecs") ->
      field p "detail-type" = None -> raises "detail-type")
  /\ (supported_event p -> field p "detail" = None -> raises "detail")
  /\ (supported_event p ->
      forall detail,
        field p "detail" = Some (PDict detail) ->
        (field (PDict detail) "agentConnected" = None -> raises "agentConnected")
        /\ (field (PDict detail) "agentConnected" = Some (PBool false) ->
            field (PDict detail) "status" = None -> raises "status")).
Proof.
  cbv zeta.
  assert (Hhead : forall key,
             run (screen (BodyJson (PDict entries))) [start_line]
             = (Err (mkExc KeyError ("'" ++ key ++ "'")), [processing_line]) ->
             handler w env (BodyJson (PDict entries) :: post)
             = (Raised (mkExc Exception_
                          ("Error: execution error - '" ++ key ++ "'")),
                [start_line; processing_line])).
  { intros key Hs. now rewrite (handler_head_screen_error w env _ post _ _ Hs). }
  split; [ | split; [ | split ] ].
  - intros Hsrc. apply Hhead. unfold screen, logger_info, json_loads. mnorm.
    now rewrite bind_getitem_missing.
  - intros Hsrc Hdt. apply Hhead. unfold screen, logger_info, json_loads. mnorm.
    rewrite (getitem_field _ _ _ Hsrc). mnorm. rewrite py_ne_str_same. mnorm.
    now rewrite bind_getitem_missing.
  - intros [Hsrc Hdt] Hdet. apply Hhead.
    unfold screen, logger_info, json_loads. mnorm.
    rewrite (getitem_field _ _ _ Hsrc). mnorm. rewrite py_ne_str_same. mnorm.
    rewrite (getitem_field _ _ _ Hdt). mnorm. rewrite py_ne_str_same. mnorm.
    now rewrite bind_getitem_missing.
  - intros [Hsrc Hdt] detail Hdet. split.
    + intros Hcon. apply Hhead.
      unfold screen, logger_info, json_loads. mnorm.
      rewrite (getitem_field _ _ _ Hsrc). mnorm. rewrite py_ne_str_same. mnorm.
      rewrite (getitem_field _ _ _ Hdt). mnorm. rewrite py_ne_str_same. mnorm.
      rewrite (getitem_field _ _ _ Hdet). mnorm.
      now rewrite bind_getitem_missing.
    + intros Hcon Hst. apply Hhead.
      unfold screen, logger_info, json_loads. mnorm.
      rewrite (getitem_field _ _ _ Hsrc). mnorm. rewrite py_ne_str_same. mnorm.
      rewrite (getitem_field _ _ _ Hdt). mnorm. rewrite py_ne_str_same. mnorm.
      rewrite (getitem_field _ _ _ Hdet). mnorm.
      rewrite (getitem_field _ _ _ Hcon). mnorm. simpl is_not_False. mnorm.
      now rewrite bind_getitem_missing.
Qed.

(** An agent declared disconnected, with no status. *)
Lemma missing_keys_raise_witness :
  handler (Sample.world "i-0123abcd") Sample.by_tag
    (BodyJson Scenario.without_status :: [Sample.alarm])
  = (Raised (mkExc Exception_ "Error: execution error - 'status'"),
     [start_line; processing_line]).
Proof.
  destruct (missing_keys_raise (Sample.world "i-0123abcd") Sample.by_tag
              [("source", PStr "aws.ecs");
               ("detail-type", PStr "ECS Container Instance State Change");
               ("detail",
                PDict [("containerInstanceArn", PStr Sample.instance_arn);
                       ("clusterArn", PStr Sample.prod);
                       ("agentConnected", PBool false)])]
              [Sample.alarm]) as (_ & _ & _ & Hdetail).
  destruct (Hdetail (conj eq_refl eq_refl) _ eq_refl) as [_ Hstatus].
  exact (Hstatus eq_refl eq_refl).
Defined.

(** ** Further properties: the monitoring configuration *)

Lemma avoids_bind_when {E A B} P (Q : A -> Prop) (m : M E A) (k : A -> M E B) :
  avoids P m ->
  (forall h a t, run m h = (Ok a, t) -> Q a) ->
  (forall a, Q a -> avoids P (k a)) ->
  avoids P (bind m k).
Proof.
  intros Hm HQ Hk h. rewrite run_bind. specialize (Hm h). specialize (HQ h).
  destruct (run m h) as [[a | e] t1]; simpl in *; [ | exact Hm ].
  specialize (Hk a (HQ a t1 eq_refl) (h ++ t1)).
  destruct (run (k a) (h ++ t1)) as [r t2].
  simpl in *. now rewrite filter_app, Hm, Hk.
Qed.

(** Without monitoring of all clusters and without a complete tag, no node
    is eligible, and nothing is asked. *)
Lemma is_eligible_unconfigured w env self h :
  monitor_all env = false ->
  monitoringTagKeyName env = None \/ monitoringTagKeyValue env = None ->
  run (is_eligible w env self) h = (Ok false, []).
Proof.
  intros Hall Htag. unfold is_eligible. rewrite Hall.
  assert (Hcheck : does_cluster_have_tags w self (monitoringTagKeyName env)
                     (monitoringTagKeyValue env) = ret false).
  { destruct Htag as [-> | ->]; [ reflexivity | ].
    now destruct (monitoringTagKeyName env). }
  rewrite Hcheck. mnorm. reflexivity.
Qed.

Lemma process_record_unconfigured P w env a r :
  (forall level fmt args, P (Log level fmt args) = false) ->
  (forall cl arn, P (DescribeContainerInstances cl arn) = false) ->
  (forall node_id, P (DescribeInstances node_id) = false) ->
  (forall node_id, P (DescribeInstanceInformation node_id) = false) ->
  monitor_all env = false ->
  monitoringTagKeyName env = None \/ monitoringTagKeyValue env = None ->
  avoids P (process_record w env a r).
Proof.
  intros Hlog Hci Hi Hinfo Hall Htag. unfold process_record, logger_info.
  apply avoids_bind; [ now apply screen_only_logs | ].
  intros [p | ]; [ | auto with avoids_db ].
  apply avoids_bind; [ now apply avoids_resolve | ]. intros self.
  apply (avoids_bind_when P (fun b => b = false)).
  - intros h. now rewrite is_eligible_unconfigured.
  - intros h b t Hrun. rewrite is_eligible_unconfigured in Hrun; auto.
    now injection Hrun as <- _.
  - intros b ->. apply avoids_bind; [ apply avoids_emit, Hlog | ].
    auto with avoids_db.
Qed.

Lemma loop_unconfigured P w env rs : forall a,
  (forall level fmt args, P (Log level fmt args) = false) ->
  (forall cl arn, P (DescribeContainerInstances cl arn) = false) ->
  (forall node_id, P (DescribeInstances node_id) = false) ->
  (forall node_id, P (DescribeInstanceInformation node_id) = false) ->
  monitor_all env = false ->
  monitoringTagKeyName env = None \/ monitoringTagKeyValue env = None ->
  avoids P (loop w env a rs).
Proof.
  induction rs as [ | r rs IH]; intros a Hlog Hci Hi Hinfo Hall Htag; simpl loop.
  - auto with avoids_db.
  - apply avoids_bind; [ now apply process_record_unconfigured | ].
    intros [[ | ] a']; [ now apply IH | auto with avoids_db ].
Qed.

(** X7.  Fail closed: when the monitoring of all clusters is not switched
    on and the tag key or the tag value is not configured, no batch ever
    dispatches a notification, and the tags of no cluster are asked for. *)
Theorem unconfigured_never_alerts w env records :
  monitor_all env = false ->
  monitoringTagKeyName env = None \/ monitoringTagKeyValue env = None ->
  filter is_publish (snd (handler w env records)) = []
  /\ filter is_tag_query (snd (handler w env records)) = [].
Proof.
  intros Hall Htag. rewrite handler_loop.
  pose proof (loop_unconfigured is_publish w env records []
                (fun _ _ _ => eq_refl) (fun _ _ => eq_refl) (fun _ => eq_refl)
                (fun _ => eq_refl) Hall Htag [start_line]) as Hp.
  pose proof (loop_unconfigured is_tag_query w env records []
                (fun _ _ _ => eq_refl) (fun _ _ => eq_refl) (fun _ => eq_refl)
                (fun _ => eq_refl) Hall Htag [start_line]) as Hq.
  destruct (run (loop w env [] records) [start_line]) as [res t]. auto.
Qed.

Lemma unconfigured_never_alerts_witness :
  filter is_publish
    (snd (handler (Sample.world "i-0123abcd") Scenario.unconfigured
            [Sample.alarm; Sample.alarm])) = []
  /\ filter is_tag_query
       (snd (handler (Sample.world "i-0123abcd") Scenario.unconfigured
               [Sample.alarm; Sample.alarm])) = [].
Proof.
  apply (unconfigured_never_alerts (Sample.world "i-0123abcd") Scenario.unconfigured
           [Sample.alarm; Sample.alarm] eq_refl (or_introl eq_refl)).
Defined.

(** ** Further properties: batches and their prefixes *)

(** X8.  The events of a batch begin with the events of each of its
    prefixes, and once a prefix makes the handler raise, the records after
    it change nothing: same exception, same events. *)
Theorem batch_extends_prefix w env pre post :
  (exists t, snd (handler w env (pre ++ post)) = snd (handler w env pre) ++ t)
  /\ (forall error,
         fst (handler w env pre) = Raised error ->
         handler w env (pre ++ post) = handler w env pre).
Proof.
  rewrite !handler_loop, loop_app.
  destruct (run (loop w env [] pre) [start_line]) as [[[[ | ] a'] | e] t1].
  - destruct (run (loop w env a' post) ([start_line] ++ t1)) as [res t2]. split.
    + now exists t2.
    + discriminate.
  - split; [ exists []; simpl; now rewrite app_nil_r | discriminate ].
  - split; [ exists []; simpl; now rewrite app_nil_r | reflexivity ].
Qed.

Lemma batch_extends_prefix_witness :
  handler (Sample.world "i-0123abcd") Sample.by_tag
    ([BodyJson Sample.foreign] ++ [Sample.alarm])
  = handler (Sample.world "i-0123abcd") Sample.by_tag [BodyJson Sample.foreign].
Proof.
  apply (proj2 (batch_extends_prefix (Sample.world "i-0123abcd") Sample.by_tag
                  [BodyJson Sample.foreign] [Sample.alarm])
           (mkExc Exception_
              "Error: execution error - Only 'aws.ecs' events and Instance state changes are supported.")).
  reflexivity.
Defined.

(** ** Further properties: from the event to the node *)

Lemma py_get_field v k x : field v k = Some x -> py_get v k = ret x.
Proof. destruct v; simpl; try discriminate. now intros ->. Qed.

Lemma py_get_dict entries k : py_get (PDict entries) k = ret (or_None (dict_lookup k entries)).
Proof. unfold py_get. now destruct (dict_lookup k entries). Qed.

(** X9.  For an event that went past the screening, the references of the
    container instance and of the cluster are optional: the node is resolved
    from the values of [containerInstanceArn] and [clusterArn], and a key
    that is missing is passed on as [None], without an error of the handler
    itself. *)
Theorem resolve_passes_optional_refs w r h p t :
  run (screen r) h = (Ok (Some p), t) ->
  forall h',
    run (resolve w p) h'
    = run (ECSNode_init w (or_None (detail_field p "containerInstanceArn"))
             (or_None (detail_field p "clusterArn"))) h'.
Proof.
  intros Hs h'. apply screen_proceeds in Hs as (_ & _ & _ & Hc & _).
  apply detail_field_inv in Hc as (detail & Hdet & Hcon).
  unfold detail_field. rewrite Hdet.
  destruct detail as [ | | | | | | entries]; try discriminate.
  unfold resolve. rewrite (py_get_field _ _ _ Hdet). mnorm.
  rewrite py_get_dict. mnorm. rewrite py_get_dict. mnorm. reflexivity.
Qed.

(** An event that names no cluster: the container service is asked with
    [None] for the cluster. *)
Lemma resolve_passes_optional_refs_witness :
  requests (snd (run (resolve (Sample.world "i-0123abcd") Scenario.without_cluster_ref)
                   [start_line; processing_line]))
  = [DescribeContainerInstances PNone (PStr Sample.instance_arn);
     DescribeInstances "i-0123abcd"].
Proof.
  rewrite (resolve_passes_optional_refs (Sample.world "i-0123abcd")
             (BodyJson Scenario.without_cluster_ref) [start_line]
             Scenario.without_cluster_ref [processing_line] eq_refl).
  reflexivity.
Defined.

(** X10.  A node that was resolved has the identifier and the agent flag of
    the first container instance the service described, and the cluster
    reference it was asked with; resolving it took exactly two requests, the
    first one to the container service. *)
Theorem node_is_first_container_instance w arn cl h self t :
  run (ECSNode_init w arn cl) h = (Ok self, t) ->
  exists ci cis,
    describe_container_instances w h cl arn = ApiOk (ci :: cis)
    /\ get_ec2_item self
       = {| ec2InstanceId := ci_ec2InstanceId ci;
            clusterArn := cl;
            agentConnected := ci_agentConnected ci |}
    /\ exists state,
         requests t = [DescribeContainerInstances cl arn; state]
         /\ is_state_query state = true.
Proof.
  intros Hinit. apply ECSNode_init_ok in Hinit as [Hfetch Hcl].
  pose proof (fetch_requests w arn cl h) as Hreq. rewrite Hfetch in Hreq.
  apply fetch_ec2_details_ok in Hfetch as (ci & cis & Hdesc & Hid & Hac & _).
  exists ci, cis. split; [ exact Hdesc | ]. split.
  - unfold get_ec2_item. now rewrite Hid, Hac, Hcl.
  - rewrite Hdesc in Hreq. simpl snd in Hreq. eexists. split; [ exact Hreq | ].
    now destruct (Re.match_ec2_id (ci_ec2InstanceId ci)).
Qed.

Lemma node_is_first_container_instance_witness :
  exists ci cis,
    describe_container_instances (Sample.world "i-0123abcd") [] (PStr Sample.prod)
      (PStr Sample.instance_arn) = ApiOk (ci :: cis)
    /\ get_ec2_item (Sample.node "i-0123abcd")
       = {| ec2InstanceId := ci_ec2InstanceId ci;
            clusterArn := PStr Sample.prod;
            agentConnected := ci_agentConnected ci |}
    /\ exists state,
         requests
           [DescribeContainerInstances (PStr Sample.prod) (PStr Sample.instance_arn);
            Log INFO "Checking node [%s]." [AStr "i-0123abcd"];
            DescribeInstances "i-0123abcd"]
         = [DescribeContainerInstances (PStr Sample.prod) (PStr Sample.instance_arn);
            state]
         /\ is_state_query state = true.
Proof.
  apply (node_is_first_container_instance (Sample.world "i-0123abcd")
           (PStr Sample.instance_arn) (PStr Sample.prod) []
           (Sample.node "i-0123abcd")).
  reflexivity.
Defined.

(** ** Further properties: the split of the cluster identifier *)

#[local] Open Scope string_scope.

Lemma rsplit_last_app sep after : forall before,
  occurs sep after = false ->
  rsplit_last sep (before ++ String sep after) = Some (before, after).
Proof.
  intros before Hocc. apply rsplit_last_none in Hocc.
  induction before as [ | c before IH]; simpl.
  - now rewrite Hocc, Ascii.eqb_refl.
  - now rewrite IH.
Qed.

(** X11.  [rsplit1] is the split at the last separator: a string without
    the separator comes back alone; a string with it comes back as the part
    before the last separator and the part after it, which joined by the
    separator give the string again, the second part holding no separator;
    and whatever is put around a last separator is found again. *)
Theorem rsplit1_splits_at_last sep s :
  (occurs sep s = false -> rsplit1 sep s = [s])
  /\ (occurs sep s = true ->
      exists before after,
        rsplit1 sep s = [before; after]
        /\ s = before ++ String sep after
        /\ occurs sep after = false)
  /\ (forall before after,
         s = before ++ String sep after -> occurs sep after = false ->
         rsplit1 sep s = [before; after]).
Proof.
  unfold rsplit1. repeat split.
  - intros Hocc. apply rsplit_last_none in Hocc. now rewrite Hocc.
  - intros Hocc.
    destruct (rsplit_last sep s) as [[before after] | ] eqn:Hs.
    + exists before, after. split; [ reflexivity | ].
      now apply rsplit_last_some.
    + apply rsplit_last_none in Hs. congruence.
  - intros before after -> Hocc. now rewrite rsplit_last_app.
Qed.

Lemma rsplit1_splits_at_last_witness :
  rsplit1 "/" "arn:aws:ecs:eu-west-1:111122223333:cluster/prod"
  = ["arn:aws:ecs:eu-west-1:111122223333:cluster"; "prod"]%list
  /\ rsplit1 "/" "default" = ["default"]%list.
Proof.
  split.
  - apply (proj2 (proj2 (rsplit1_splits_at_last "/"
                           "arn:aws:ecs:eu-west-1:111122223333:cluster/prod")));
      reflexivity.
  - apply (proj1 (rsplit1_splits_at_last "/" "default")). reflexivity.
Defined.

#[local] Open Scope list_scope.

(** X12.  For a cluster identifier that is some text, a ["/"] and a last
    part without ["/"], an alert whose notification is sent ends well: the
    node joins the list of the nodes already processed, and the line for the
    metric is logged as a warning with that last part and the node
    identifier, after the publication. *)
Theorem alert_logs_short_name w env a self h before short :
  ~ In (ec2_id self) a ->
  publish w (h ++ [sending_line (notification_text_of w self)])
    (sendEmailNotification env) (email_subject_of (ec2_id self))
    (notification_text_of w self) = ApiOk tt ->
  py_str w (cluster_arn self) = (before ++ String "/" short)%string ->
  occurs "/" short = false ->
  run (alert w env a self) h
  = (Ok (a ++ [ec2_id self]),
     [sending_line (notification_text_of w self);
      Publish (sendEmailNotification env) (email_subject_of (ec2_id self))
        (notification_text_of w self);
      Log WARNING "%s %s" [AStr short; AStr (ec2_id self)]]).
Proof.
  intros Hin Hpub Hcl Hocc.
  apply (alert_short_name w env a self h before short Hin Hpub).
  rewrite Hcl. now apply rsplit_last_app.
Qed.

Lemma alert_logs_short_name_witness :
  run (alert (Sample.world "i-0123abcd") Sample.by_tag [] (Sample.node "i-0123abcd")) []
  = (Ok ([] ++ [ec2_id (Sample.node "i-0123abcd")]),
     [sending_line (notification_text_of (Sample.world "i-0123abcd")
                      (Sample.node "i-0123abcd"));
      Publish (sendEmailNotification Sample.by_tag)
        (email_subject_of (ec2_id (Sample.node "i-0123abcd")))
        (notification_text_of (Sample.world "i-0123abcd") (Sample.node "i-0123abcd"));
      Log WARNING "%s %s" [AStr "prod"; AStr (ec2_id (Sample.node "i-0123abcd"))]]).
Proof.
  apply (alert_logs_short_name (Sample.world "i-0123abcd") Sample.by_tag []
           (Sample.node "i-0123abcd") []
           "arn:aws:ecs:eu-west-1:111122223333:cluster" "prod");
    try reflexivity.
  intros [].
Defined.

(** ** Further properties: what a notification presupposes *)

Lemma is_eligible_true_inv w env self h :
  fst (run (is_eligible w env self) h) = Ok true ->
  (monitor_all env = true
   \/ fst (run (does_cluster_have_tags w self (monitoringTagKeyName env)
                  (monitoringTagKeyValue env)) h) = Ok true)
  /\ isRunning self = true /\ agent_connected self = false.
Proof.
  rewrite is_eligible_result.
  destruct (monitor_all env);
    [ | destruct (fst (run (does_cluster_have_tags _ _ _ _) h)) as [[ | ] | e] ];
    try discriminate;
    intros Heq; injection Heq as Heq; apply andb_true_iff in Heq as [Hrun Hcon];
    apply negb_true_iff in Hcon; auto.
Qed.

(** X13.  No notification without cause: when the processing of a record
    dispatches a notification, the record went past the screening and its
    node was resolved; that node is running, its agent is disconnected by
    the answer of the container service, its cluster is monitored (all
    clusters are, or the tag check returned true), the node had not been
    alerted in the batch, and the one notification is about that node. *)
Theorem dispatch_is_sound w env a r h res t :
  run (process_record w env a r) h = (res, t) ->
  dispatched t <> [] ->
  exists p self t1 t2,
    run (screen r) h = (Ok (Some p), t1)
    /\ run (resolve w p) (h ++ t1) = (Ok self, t2)
    /\ (monitor_all env = true
        \/ fst (run (does_cluster_have_tags w self (monitoringTagKeyName env)
                       (monitoringTagKeyValue env)) (h ++ t1 ++ t2)) = Ok true)
    /\ isRunning self = true
    /\ agent_connected self = false
    /\ ~ In (ec2_id self) a
    /\ dispatched t = [ec2_id self].
Proof.
  unfold process_record. rewrite run_bind.
  pose proof (screen_only_logs is_publish r (fun _ _ _ => eq_refl) h) as Hs.
  destruct (run (screen r) h) as [[[p | ] | e] t1] eqn:Hscreen; simpl in Hs;
    apply dispatched_none in Hs.
  2:{ rewrite run_ret, app_nil_r. intros Heq Hd. injection Heq as <- <-. tauto. }
  2:{ intros Heq Hd. injection Heq as <- <-. tauto. }
  rewrite run_bind.
  pose proof (avoids_resolve is_publish w p (fun _ _ _ => eq_refl)
                (fun _ _ => eq_refl) (fun _ => eq_refl) (fun _ => eq_refl)
                (h ++ t1)) as Hr.
  destruct (run (resolve w p) (h ++ t1)) as [[self | e] t2] eqn:Hresolve;
    simpl in Hr; apply dispatched_none in Hr.
  2:{ intros Heq Hd. injection Heq as <- <-.
      rewrite dispatched_app, Hs, Hr in Hd. tauto. }
  rewrite run_bind.
  pose proof (avoids_is_eligible is_publish w env self (fun _ _ _ => eq_refl)
                (fun _ => eq_refl) ((h ++ t1) ++ t2)) as He.
  destruct (run (is_eligible w env self) ((h ++ t1) ++ t2)) as [[[ | ] | e] t3]
    eqn:Hel; simpl in He; apply dispatched_none in He.
  3:{ intros Heq Hd. injection Heq as <- <-.
      rewrite !dispatched_app, Hs, Hr, He in Hd. tauto. }
  2:{ unfold logger_info. mnorm. intros Heq Hd. injection Heq as <- <-.
      rewrite !dispatched_app, Hs, Hr, He in Hd. simpl in Hd. tauto. }
  assert (Hcond : fst (run (is_eligible w env self) (h ++ t1 ++ t2)) = Ok true).
  { now rewrite app_assoc, Hel. }
  apply is_eligible_true_inv in Hcond as (Hmon & Hrun & Hcon).
  rewrite run_bind.
  destruct (in_dec string_dec (ec2_id self) a) as [Hin | Hin].
  - rewrite (alert_suppressed w env a self _ Hin). mnorm.
    intros Heq Hd. injection Heq as <- <-.
    rewrite !dispatched_app, Hs, Hr, He in Hd. simpl in Hd. tauto.
  - destruct (alert_dispatched w env a self (((h ++ t1) ++ t2) ++ t3) Hin)
      as (res' & rest & -> & Hrest & _).
    apply dispatched_no_request in Hrest.
    intros Heq _. exists p, self, t1, t2. repeat split; auto.
    destruct res' as [a'' | e]; mnorm_in Heq; injection Heq as <- <-;
      now rewrite !dispatched_app, Hs, Hr, He, dispatched_alert, Hrest.
Qed.

Lemma dispatch_is_sound_witness :
  exists p self t1 t2,
    run (screen Sample.alarm) [start_line] = (Ok (Some p), t1)
    /\ run (resolve (Sample.world "i-0123abcd") p) ([start_line] ++ t1) = (Ok self, t2)
    /\ (monitor_all Sample.by_tag = true
        \/ fst (run (does_cluster_have_tags (Sample.world "i-0123abcd") self
                       (monitoringTagKeyName Sample.by_tag)
                       (monitoringTagKeyValue Sample.by_tag))
                    ([start_line] ++ t1 ++ t2)) = Ok true)
    /\ isRunning self = true
    /\ agent_connected self = false
    /\ ~ In (ec2_id self) []
    /\ dispatched
         (snd (run (process_record (Sample.world "i-0123abcd") Sample.by_tag []
                      Sample.alarm) [start_line]))
       = [ec2_id self].
Proof.
  apply (dispatch_is_sound (Sample.world "i-0123abcd") Sample.by_tag [] Sample.alarm
           [start_line]
           (fst (run (process_record (Sample.world "i-0123abcd") Sample.by_tag []
                        Sample.alarm) [start_line]))).
  - now destruct (run (process_record _ _ _ _) _).
  - vm_compute. discriminate.
Defined.

(** ** Further properties: the requests of one record *)

Lemma requests_app t1 t2 : requests (t1 ++ t2) = requests t1 ++ requests t2.
Proof. apply filter_app. Qed.

Lemma py_get_cases v k :
  (exists x, py_get v k = ret x) \/ (exists e, py_get v k = raise e).
Proof.
  destruct v; simpl; try (right; eexists; reflexivity).
  destruct (dict_lookup k entries); left; eexists; reflexivity.
Qed.

Lemma ECSNode_init_requests w arn cl h :
  let (res, t) := run (ECSNode_init w arn cl) h in
  (exists state,
      requests t = [DescribeContainerInstances cl arn; state]
      /\ is_state_query state = true)
  \/ (requests t = [DescribeContainerInstances cl arn] /\ exists e, res = Err e).
Proof.
  unfold ECSNode_init. rewrite run_bind.
  pose proof (fetch_requests w arn cl h) as Hreq.
  destruct (run (fetch_ec2_details w arn cl) h) as [[[[id st] ac] | e] t] eqn:Hfetch;
    simpl snd in Hreq.
  - apply fetch_ec2_details_ok in Hfetch as (ci & cis & Hdesc & _).
    rewrite Hdesc in Hreq. rewrite run_ret, app_nil_r. left.
    eexists. split; [ exact Hreq | ].
    now destruct (Re.match_ec2_id (ci_ec2InstanceId ci)).
  - destruct (describe_container_instances w h cl arn) as [[ | ci cis] | c m | text];
      try (right; split; [ exact Hreq | now exists e ]).
    left. eexists. split; [ exact Hreq | ].
    now destruct (Re.match_ec2_id (ci_ec2InstanceId ci)).
Qed.

Lemma resolve_requests w p h :
  let (res, t) := run (resolve w p) h in
  (exists cl arn state,
      requests t = [DescribeContainerInstances cl arn; state]
      /\ is_state_query state = true)
  \/ ((requests t = [] \/ exists cl arn, requests t = [DescribeContainerInstances cl arn])
      /\ exists e, res = Err e).
Proof.
  unfold resolve.
  destruct (py_get_cases p "detail") as [(detail & ->) | (e & ->)]; mnorm;
    [ | right; split; [ now left | now exists e ] ].
  destruct (py_get_cases detail "containerInstanceArn") as [(arn & ->) | (e & ->)];
    mnorm; [ | right; split; [ now left | now exists e ] ].
  destruct (py_get_cases detail "clusterArn") as [(cl & ->) | (e & ->)];
    mnorm; [ | right; split; [ now left | now exists e ] ].
  pose proof (ECSNode_init_requests w arn cl h) as Hinit.
  destruct (run (ECSNode_init w arn cl) h) as [res t].
  destruct Hinit as [(state & Hreq & Hstate) | (Hreq & He)].
  - left. now exists cl, arn, state.
  - right. split; [ right; now exists cl, arn | exact He ].
Qed.

Lemma does_cluster_have_tags_requests w self k v h :
  requests (snd (run (does_cluster_have_tags w self k v) h)) = []
  \/ requests (snd (run (does_cluster_have_tags w self k v) h))
     = [DescribeClusters (cluster_arn self)].
Proof.
  destruct k as [k | ], v as [v | ]; try (left; reflexivity).
  right. unfold does_cluster_have_tags, logger_info.
  rewrite run_catch, bind_call.
  destruct (describe_clusters w h (cluster_arn self)) as [[ | c cs] | code msg | text];
    unfold index0; mnorm; try reflexivity.
  destruct (filter (tag_matches k v) (tags c)); mnorm; reflexivity.
Qed.

Lemma is_eligible_requests w env self h :
  requests (snd (run (is_eligible w env self) h)) = []
  \/ requests (snd (run (is_eligible w env self) h))
     = [DescribeClusters (cluster_arn self)].
Proof.
  unfold is_eligible. rewrite run_bind.
  assert (Hrest : forall (monitored : bool) h',
             requests
               (snd (run (if monitored then
                            running <- is_ec2_running self ;;
                            if (running : bool) then
                              connected <- is_agent_connected self ;;
                              ret (negb connected)
                            else ret false
                          else ret false) h')) = []).
  { intros [ | ] h'; [ | reflexivity ].
    rewrite run_bind, is_ec2_running_run.
    destruct (isRunning self); [ | reflexivity ].
    rewrite run_bind, is_agent_connected_run. reflexivity. }
  destruct (monitor_all env).
  - left. rewrite run_ret. specialize (Hrest true (h ++ [])).
    destruct (run _ (h ++ [])) as [res t]. exact Hrest.
  - pose proof (does_cluster_have_tags_requests w self (monitoringTagKeyName env)
                  (monitoringTagKeyValue env) h) as Htags.
    destruct (run (does_cluster_have_tags _ _ _ _) h) as [[monitored | e] t1];
      simpl snd in Htags; [ | exact Htags ].
    specialize (Hrest monitored (h ++ t1)).
    destruct (run _ (h ++ t1)) as [res t2]. simpl snd in *.
    rewrite requests_app, Hrest, app_nil_r. exact Htags.
Qed.

Lemma alert_requests w env a self h :
  requests (snd (run (alert w env a self) h)) = []
  \/ exists topic subject body,
       requests (snd (run (alert w env a self) h)) = [Publish topic subject body].
Proof.
  destruct (in_dec string_dec (ec2_id self) a) as [Hin | Hin].
  - left. now rewrite (alert_suppressed w env a self h Hin).
  - right. destruct (alert_dispatched w env a self h Hin)
      as (res & rest & -> & Hrest & _).
    do 3 eexists. unfold requests in *. simpl. now rewrite Hrest.
Qed.

(** X14.  Whatever the record and the answers of the services, the
    processing of one record sends its requests in one order and each at
    most once: the container instance, the state of the node, the tags of
    the cluster, the notification; the tags and the notification are sent
    only after the node was described and its state asked.  In particular a
    record sends at most four requests and at most one notification. *)
Theorem requests_of_a_record w env a r h :
  record_requests (requests (snd (run (process_record w env a r) h))) = true.
Proof.
  unfold process_record. rewrite run_bind.
  pose proof (screen_only_logs is_request r (fun _ _ _ => eq_refl) h) as Hs.
  destruct (run (screen r) h) as [[[p | ] | e] t1]; simpl snd in Hs;
    fold (requests t1) in Hs.
  2:{ rewrite run_ret, app_nil_r. simpl snd. now rewrite Hs. }
  2:{ simpl snd. now rewrite Hs. }
  rewrite run_bind.
  pose proof (resolve_requests w p (h ++ t1)) as Hr.
  destruct (run (resolve w p) (h ++ t1)) as [[self | e] t2].
  2:{ simpl snd. rewrite requests_app, Hs.
      destruct Hr as [(cl & arn & state & -> & Hstate)
                     | ([-> | (cl & arn & ->)] & _)]; simpl;
        [ now rewrite Hstate | reflexivity | reflexivity ]. }
  destruct Hr as [(cl & arn & state & Hr & Hstate) | (_ & e & He)];
    [ | discriminate ].
  rewrite run_bind.
  pose proof (is_eligible_requests w env self ((h ++ t1) ++ t2)) as He.
  destruct (run (is_eligible w env self) ((h ++ t1) ++ t2)) as [[[ | ] | e] t3];
    simpl snd in He.
  - rewrite run_bind.
    pose proof (alert_requests w env a self (((h ++ t1) ++ t2) ++ t3)) as Ha.
    destruct (run (alert w env a self) (((h ++ t1) ++ t2) ++ t3)) as [[a' | e] t4];
      simpl snd in Ha; mnorm; simpl snd;
      rewrite !requests_app, Hs, Hr;
      destruct He as [-> | ->];
      destruct Ha as [-> | (topic & subject & body & ->)];
      simpl; now rewrite Hstate.
  - unfold logger_info. mnorm. simpl snd.
    rewrite !requests_app, Hs, Hr.
    destruct He as [-> | ->]; simpl; now rewrite Hstate.
  - simpl snd. rewrite !requests_app, Hs, Hr.
    destruct He as [-> | ->]; simpl; now rewrite Hstate.
Qed.

(** X15.  A batch dispatches at most one notification per record, whatever
    the services answer. *)
Theorem at_most_one_notification_per_record w env records :
  length (dispatched (snd (handler w env records))) <= length records.
Proof.
  rewrite handler_loop.
  assert (Hloop : forall rs a h,
             length (dispatched (snd (run (loop w env a rs) h))) <= length rs).
  { induction rs as [ | r rs IH]; intros a h; [ simpl; lia | ].
    rewrite loop_cons.
    destruct (run (process_record w env a r) h) as [res t1] eqn:Hstep.
    assert (Hone : length (dispatched t1) <= 1).
    { apply process_record_dedup in Hstep as [[-> _] | (n & _ & -> & _)];
        simpl; lia. }
    destruct res as [[[ | ] a'] | e]; simpl length; try (simpl snd; lia).
    specialize (IH a' (h ++ t1)).
    destruct (run (loop w env a' rs) (h ++ t1)) as [res2 t2]. simpl snd in *.
    rewrite dispatched_app, length_app. lia. }
  specialize (Hloop records [] [start_line]).
  destruct (run (loop w env [] records) [start_line]) as [res t].
  exact Hloop.
Qed.

(** ** Further properties: the switch for all clusters *)

#[local] Open Scope string_scope.

Ltac letter_cases c :=
  unfold letter; destruct c as [[] [] [] [] [] [] [] []];
  vm_compute; split; intros H; try discriminate H; auto;
  destruct H as [H | H]; try discriminate H; reflexivity.

Lemma lower_char_t c : lower_char c = "t"%char <-> letter "t" c.
Proof. letter_cases c. Qed.

Lemma lower_char_r c : lower_char c = "r"%char <-> letter "r" c.
Proof. letter_cases c. Qed.

Lemma lower_char_u c : lower_char c = "u"%char <-> letter "u" c.
Proof. letter_cases c. Qed.

Lemma lower_char_e c : lower_char c = "e"%char <-> letter "e" c.
Proof. letter_cases c. Qed.

Lemma lower_char_y c : lower_char c = "y"%char <-> letter "y" c.
Proof. letter_cases c. Qed.

Lemma lower_char_s c : lower_char c = "s"%char <-> letter "s" c.
Proof. letter_cases c. Qed.

Lemma lower_true s :
  lower s = "true" <->
  exists c1 c2 c3 c4,
    s = String c1 (String c2 (String c3 (String c4 "")))
    /\ letter "t" c1 /\ letter "r" c2 /\ letter "u" c3 /\ letter "e" c4.
Proof.
  split.
  - destruct s as [ | c1 [ | c2 [ | c3 [ | c4 [ | c5 s]]]]]; try discriminate.
    simpl. intros Heq. injection Heq as H1 H2 H3 H4.
    exists c1, c2, c3, c4. split; [ reflexivity | ].
    now rewrite <- lower_char_t, <- lower_char_r, <- lower_char_u, <- lower_char_e.
  - intros (c1 & c2 & c3 & c4 & -> & H1 & H2 & H3 & H4). simpl.
    apply lower_char_t in H1. apply lower_char_r in H2.
    apply lower_char_u in H3. apply lower_char_e in H4. congruence.
Qed.

Lemma lower_yes s :
  lower s = "yes" <->
  exists c1 c2 c3,
    s = String c1 (String c2 (String c3 ""))
    /\ letter "y" c1 /\ letter "e" c2 /\ letter "s" c3.
Proof.
  split.
  - destruct s as [ | c1 [ | c2 [ | c3 [ | c4 s]]]]; try discriminate.
    simpl. intros Heq. injection Heq as H1 H2 H3.
    exists c1, c2, c3. split; [ reflexivity | ].
    now rewrite <- lower_char_y, <- lower_char_e, <- lower_char_s.
  - intros (c1 & c2 & c3 & -> & H1 & H2 & H3). simpl.
    apply lower_char_y in H1. apply lower_char_e in H2. apply lower_char_s in H3.
    congruence.
Qed.

(** X16.  All clusters are monitored exactly when [checkAllClusters] is set
    to the word [true] or the word [yes], each letter in lower or in upper
    case, and nothing else around it; the variable not being set, and any
    other value, leave the decision to the tags. *)
Theorem monitor_all_values env :
  monitor_all env = true <->
  exists s,
    checkAllClusters env = Some s
    /\ ((exists c1 c2 c3 c4,
            s = String c1 (String c2 (String c3 (String c4 "")))
            /\ letter "t" c1 /\ letter "r" c2 /\ letter "u" c3 /\ letter "e" c4)
        \/ (exists c1 c2 c3,
               s = String c1 (String c2 (String c3 ""))
               /\ letter "y" c1 /\ letter "e" c2 /\ letter "s" c3)).
Proof.
  unfold monitor_all. split.
  - destruct (checkAllClusters env) as [s | ]; [ | discriminate ].
    simpl. intros Hex. exists s. split; [ reflexivity | ].
    apply orb_true_iff in Hex as [Heq | Hex].
    + left. apply lower_true. now apply String.eqb_eq.
    + apply orb_true_iff in Hex as [Heq | Hex]; [ | discriminate ].
      right. apply lower_yes. now apply String.eqb_eq.
  - intros (s & -> & [Ht | Hy]); simpl.
    + apply lower_true in Ht. rewrite Ht. reflexivity.
    + apply lower_yes in Hy. rewrite Hy. reflexivity.
Qed.

#[local] Open Scope list_scope.

(** ** Failures, from the service to the invoking environment *)






